(** * openvpn3-linux: log writers and backend signals

    A shallow embedding of
      - src/log/logwriter.hpp, src/log/logwriter.cpp
        (LogMetaDataValue, LogMetaData, LogWriter and its backends), and
      - src/client/backend-signals.hpp
        (Backend::Signals::RegistrationRequest, BackendSignals),
    followed by the properties established for them.

    Conventions.  std::string is [string]; a std::vector is a [list] in
    insertion order (push_back appends at the end); an output stream is
    the [string] written to it so far; member functions take the object
    state explicitly and return the new state. *)

From Stdlib Require Import String Ascii List ZArith Bool Lia.
Import ListNotations.

Local Open Scope string_scope.

(** ** Declarations taken from headers outside these sources *)

(** logtag.hpp: a LogTag is used through its [str(bool)] member and its
    public [encaps] member only. *)
Record LogTag : Type := mkLogTag {
  LogTag_str : bool -> string;
  LogTag_encaps : bool
}.

(** logevent.hpp, log-helpers and timestamp.hpp: the enumerations
    LogGroup and LogCategory, the helpers that turn them into text or a
    syslog priority, and the default-constructed LogTag.  The writers use
    them as black boxes, so they are an interface here.
    [LogCategory_value] is the underlying integer of the enum class;
    the built-in [<] on LogCategory compares these. *)
Class LogDecls : Type := {
  LogGroup : Type;
  LogCategory : Type;
  LogGroup_UNDEFINED : LogGroup;
  LogCategory_INFO : LogCategory;
  LogCategory_FATAL : LogCategory;
  LogCategory_value : LogCategory -> Z;
  LogPrefix : LogGroup -> LogCategory -> string;
  LogGroupStr : LogGroup -> string;
  LogCategoryStr : LogCategory -> string;
  logcatg2syslog : LogCategory -> Z;
  LogTag_default : LogTag
}.

(** [std::endl] as written to a stream. *)
Definition endl : string := String (ascii_of_nat 10) EmptyString.

(** [std::string::c_str()] read back as a C string by a [%s] conversion
    or [strdup]: everything before the first NUL character. *)
Fixpoint c_str (s : string) : string :=
  match s with
  | EmptyString => EmptyString
  | String c r =>
      if Ascii.eqb c zero then EmptyString else String c (c_str r)
  end.

(** [std::toupper] on an [unsigned char] in the "C" locale. *)
Definition toupper (c : ascii) : ascii :=
  let n := nat_of_ascii c in
  if ((97 <=? n) && (n <=? 122))%nat then ascii_of_nat (n - 32) else c.

(** [std::transform(label.begin(), label.end(), label.begin(), toupper)] *)
Fixpoint transform_toupper (s : string) : string :=
  match s with
  | EmptyString => EmptyString
  | String c r => String (toupper c) (transform_toupper r)
  end.

(** [std::find_if(first, last, pred)]: the first element satisfying
    [pred], [None] standing for the [end()] iterator. *)
Fixpoint find_if {A : Type} (pred : A -> bool) (l : list A) : option A :=
  match l with
  | [] => None
  | e :: r => if pred e then Some e else find_if pred r
  end.

(** ** LogMetaDataValue *)

Inductive LogMetaDataValue_Type : Type :=
| LOGMETA_STRING
| LOGMETA_LOGTAG.

Record LogMetaDataValue : Type := mkLogMetaDataValue {
  type : LogMetaDataValue_Type;
  label : string;
  str_value : string;
  logtag : LogTag;
  skip : bool
}.

Section Metadata.
Context {decls : LogDecls}.

(** LogMetaDataValue(const std::string& l, const std::string& v, bool s) *)
Definition LogMetaDataValue_string (l v : string) (s : bool)
  : LogMetaDataValue :=
  {| type := LOGMETA_STRING; label := l; str_value := v;
     logtag := LogTag_default; skip := s |}.

(** LogMetaDataValue(const std::string& l, const LogTag& v, bool s) *)
Definition LogMetaDataValue_logtag (l : string) (v : LogTag) (s : bool)
  : LogMetaDataValue :=
  {| type := LOGMETA_LOGTAG; label := l; str_value := "";
     logtag := v; skip := s |}.

End Metadata.

(** LogMetaDataValue::GetValue(const bool logtag_encaps) *)
Definition GetValue (mdv : LogMetaDataValue) (logtag_encaps : bool)
  : string :=
  match type mdv with
  | LOGMETA_STRING => str_value mdv
  | LOGMETA_LOGTAG => LogTag_str (logtag mdv) logtag_encaps
  end.

(** The default argument of [GetValue(const bool logtag_encaps=true)]. *)
Definition GetValue_default (mdv : LogMetaDataValue) : string :=
  GetValue mdv true.

(** operator<<(std::ostream&, const LogMetaDataValue) *)
Definition LogMetaDataValue_print (os : string) (mdv : LogMetaDataValue)
  : string :=
  if skip mdv then os
  else os ++ label mdv ++ "=" ++ GetValue mdv (LogTag_encaps (logtag mdv)).

(** ** LogMetaData *)

(** The private member [std::vector<LogMetaDataValue::Ptr> metadata]. *)
Definition LogMetaData : Type := list LogMetaDataValue.

(** LogMetaData::AddMeta: [metadata.push_back(create(l, v, skip))],
    given the value already created. *)
Definition LogMetaData_AddMeta (md : LogMetaData) (mdv : LogMetaDataValue)
  : LogMetaData :=
  (md ++ [mdv])%list.

(** LogMetaData::GetMetaValue(l, encaps_logtag, postfix) *)
Definition GetMetaValue (md : LogMetaData) (l : string)
  (encaps_logtag : bool) (postfix : string) : string :=
  match find_if (fun e => String.eqb l (label e)) md with
  | None => ""
  | Some e => GetValue e encaps_logtag ++ postfix
  end.

(** The declaration in logwriter.hpp gives the defaults
    [encaps_logtag=true] and [postfix=" "]. *)
Definition GetMetaValue_default_postfix (md : LogMetaData) (l : string)
  (encaps_logtag : bool) : string :=
  GetMetaValue md l encaps_logtag " ".

Definition GetMetaValue_default (md : LogMetaData) (l : string) : string :=
  GetMetaValue md l true " ".

(** One iteration of the loop of GetMetaDataRecords: the record pushed
    for the entry [mdc]. *)
Definition GetMetaDataRecords_body (upcase_label logtag_encaps : bool)
  (ret : list string) (mdc : LogMetaDataValue) : list string :=
  let label := label mdc in
  let label := if upcase_label then transform_toupper label else label in
  match type mdc with
  | LOGMETA_LOGTAG =>
      (ret ++ [(label ++ "=" ++ GetValue mdc logtag_encaps)%string])%list
  | LOGMETA_STRING =>
      (ret ++ [(label ++ "=" ++ GetValue_default mdc)%string])%list
  end.

(** LogMetaData::GetMetaDataRecords(upcase_label, logtag_encaps) *)
Definition GetMetaDataRecords (md : LogMetaData)
  (upcase_label logtag_encaps : bool) : list string :=
  fold_left (GetMetaDataRecords_body upcase_label logtag_encaps) md [].

(** The text of the record for one entry, whichever branch of the loop
    body pushes it: the label, "=", and the value. *)
Definition record_of (upcase_label logtag_encaps : bool)
  (mdc : LogMetaDataValue) : string :=
  (if upcase_label then transform_toupper (label mdc) else label mdc)
  ++ "=" ++ GetValue mdc logtag_encaps.

Definition LogMetaData_size (md : LogMetaData) : nat := length md.

Definition LogMetaData_empty (md : LogMetaData) : bool :=
  match md with [] => true | _ => false end.

Definition LogMetaData_clear (md : LogMetaData) : LogMetaData := [].

(** operator<<(std::ostream&, const LogMetaData&): the loop state is the
    stream and the local [first]. *)
Definition LogMetaData_print_body (st : string * bool)
  (mdv : LogMetaDataValue) : string * bool :=
  let '(os, first) := st in
  if skip mdv then (os, first)
  else
    (LogMetaDataValue_print (os ++ (if negb first then ", " else "")) mdv,
     false).

Definition LogMetaData_print (os : string) (mdc : LogMetaData) : string :=
  fst (fold_left LogMetaData_print_body mdc (os, true)).

(** ** LogEvent (logevent.hpp) *)

Section Writers.
Context {decls : LogDecls}.

(** The members of LogEvent the writers read. *)
Record LogEvent : Type := mkLogEvent {
  group : LogGroup;
  category : LogCategory;
  message : string;
  session_token : string
}.

(** Modelled from the spec: the constructor LogEvent(grp, ctg, msg) of
    logevent.hpp, which is not part of these sources.  The event carries
    the group, the category and the message it is built from, and its
    optional session token is left empty. *)
Definition LogEvent_new (grp : LogGroup) (ctg : LogCategory) (msg : string)
  : LogEvent :=
  {| group := grp; category := ctg; message := msg; session_token := "" |}.

Definition GetLogGroupStr (ev : LogEvent) : string :=
  LogGroupStr (group ev).

Definition GetLogCategoryStr (ev : LogEvent) : string :=
  LogCategoryStr (category ev).

(** ** LogWriter: the protected members and the non-virtual interface *)

Record LogWriter : Type := mkLogWriter {
  timestamp : bool;
  log_meta : bool;
  metadata : LogMetaData;
  prepend_prefix : bool;
  prepend_label : string;
  prepend_meta : bool
}.

(** The default member initialisers. *)
Definition LogWriter_new : LogWriter :=
  {| timestamp := true; log_meta := true; metadata := [];
     prepend_prefix := true; prepend_label := ""; prepend_meta := false |}.

Definition EnableTimestamp (w : LogWriter) (tstamp : bool) : LogWriter :=
  {| timestamp := tstamp; log_meta := log_meta w; metadata := metadata w;
     prepend_prefix := prepend_prefix w; prepend_label := prepend_label w;
     prepend_meta := prepend_meta w |}.

Definition TimestampEnabled (w : LogWriter) : bool := timestamp w.

Definition EnableLogMeta (w : LogWriter) (meta : bool) : LogWriter :=
  {| timestamp := timestamp w; log_meta := meta; metadata := metadata w;
     prepend_prefix := prepend_prefix w; prepend_label := prepend_label w;
     prepend_meta := prepend_meta w |}.

Definition LogMetaEnabled (w : LogWriter) : bool := log_meta w.

Definition EnableMessagePrepend (w : LogWriter) (mp : bool) : LogWriter :=
  {| timestamp := timestamp w; log_meta := log_meta w;
     metadata := metadata w;
     prepend_prefix := mp; prepend_label := prepend_label w;
     prepend_meta := prepend_meta w |}.

Definition MessagePrependEnabled (w : LogWriter) : bool := prepend_prefix w.

(** Assignment to the member [metadata]. *)
Definition set_metadata (w : LogWriter) (md : LogMetaData) : LogWriter :=
  {| timestamp := timestamp w; log_meta := log_meta w; metadata := md;
     prepend_prefix := prepend_prefix w; prepend_label := prepend_label w;
     prepend_meta := prepend_meta w |}.

(** AddMeta(const std::string& label, const std::string& data, bool skip) *)
Definition AddMeta (w : LogWriter) (label data : string) (skip : bool)
  : LogWriter :=
  if log_meta w
  then set_metadata w
         (LogMetaData_AddMeta (metadata w)
            (LogMetaDataValue_string label data skip))
  else w.

(** AddMeta(const std::string& label, const LogTag& ltg,
            const bool skip, const bool encaps); [encaps] is unused. *)
Definition AddMeta_logtag (w : LogWriter) (label : string) (ltg : LogTag)
  (skip encaps : bool) : LogWriter :=
  if log_meta w
  then set_metadata w
         (LogMetaData_AddMeta (metadata w)
            (LogMetaDataValue_logtag label ltg skip))
  else w.

Definition AddMetaCopy (w : LogWriter) (mdc : LogMetaData) : LogWriter :=
  set_metadata w mdc.

Definition PrependMeta (w : LogWriter) (label : string) (prep_meta : bool)
  : LogWriter :=
  {| timestamp := timestamp w; log_meta := log_meta w;
     metadata := metadata w; prepend_prefix := prepend_prefix w;
     prepend_label := label; prepend_meta := prep_meta |}.

(** What every Write implementation of logwriter.cpp ends with:
    [prepend_label.clear(); metadata.clear();], with [prepend_meta] left
    at the value [pm] the body computed. *)
Definition Write_epilogue (w : LogWriter) (pm : bool) : LogWriter :=
  {| timestamp := timestamp w; log_meta := log_meta w;
     metadata := LogMetaData_clear (metadata w);
     prepend_prefix := prepend_prefix w;
     prepend_label := ""; prepend_meta := pm |}.

(** ** The virtual Write overloads of the base class

    Each default calls another virtual overload of the same object, so
    it takes the overrider it dispatches to as an argument. *)

Section Defaults.
Context {W : Type}.

(** LogWriter::Write(grp, ctg, data, colour_init, colour_reset) *)
Definition LogWriter_Write_group
  (Write : W -> string -> string -> string -> W)
  (w : W) (grp : LogGroup) (ctg : LogCategory)
  (data colour_init colour_reset : string) : W :=
  Write w (LogPrefix grp ctg ++ data) colour_init colour_reset.

(** LogWriter::Write(grp, ctg, data) *)
Definition LogWriter_Write_plain
  (Write_group :
     W -> LogGroup -> LogCategory -> string -> string -> string -> W)
  (w : W) (grp : LogGroup) (ctg : LogCategory) (data : string) : W :=
  Write_group w grp ctg data "" "".

(** LogWriter::Write(const LogEvent& logev) *)
Definition LogWriter_Write_event
  (Write_plain : W -> LogGroup -> LogCategory -> string -> W)
  (w : W) (logev : LogEvent) : W :=
  Write_plain w (group logev) (category logev) (message logev).

End Defaults.

(** ** What the platform answers during one Write

    [GetTimestamp()] is called once for the metadata line and once for
    the message line; [sd_journal_sendv] returns a status and, when it
    fails, [strerror(errno)] names the error. *)
Record Env : Type := mkEnv {
  GetTimestamp_meta : string;
  GetTimestamp_line : string;
  sd_journal_sendv_result : Z;
  strerror_errno : string
}.

(** ** StreamLogWriter *)

Record StreamLogWriter : Type := mkStreamLogWriter {
  stream_base : LogWriter;
  dest : string
}.

(** The metadata line of StreamLogWriter::Write: the body of
    [if (log_meta && !metadata.empty())], appended to [os]. *)
Definition StreamLogWriter_meta_line (env : Env) (b : LogWriter)
  (os colour_init colour_reset : string) : string :=
  let os := os ++ (if timestamp b then GetTimestamp_meta env else "")
               ++ " " ++ colour_init in
  let os := if prepend_meta b
            then os ++ GetMetaValue_default (metadata b) (prepend_label b)
            else os in
  LogMetaData_print os (metadata b) ++ colour_reset ++ endl.

(** The message line of StreamLogWriter::Write, appended to [os]. *)
Definition StreamLogWriter_data_line (env : Env) (b : LogWriter)
  (os data colour_init colour_reset : string) : string :=
  let os := os ++ (if timestamp b then GetTimestamp_line env else "")
               ++ " " ++ colour_init in
  let os := if negb (String.eqb (prepend_label b) "")
            then os ++ GetMetaValue_default (metadata b) (prepend_label b)
            else os in
  os ++ data ++ colour_reset ++ endl.

(** StreamLogWriter::Write(data, colour_init, colour_reset) *)
Definition StreamLogWriter_Write (env : Env) (w : StreamLogWriter)
  (data colour_init colour_reset : string) : StreamLogWriter :=
  let b := stream_base w in
  let '(os, pm) :=
    if log_meta b && negb (LogMetaData_empty (metadata b))
    then (StreamLogWriter_meta_line env b (dest w) colour_init colour_reset,
          false)
    else (dest w, prepend_meta b) in
  {| stream_base := Write_epilogue b pm;
     dest := StreamLogWriter_data_line env b os data
               colour_init colour_reset |}.

(** The overloads StreamLogWriter inherits. *)
Definition StreamLogWriter_Write_group (env : Env) :=
  LogWriter_Write_group (StreamLogWriter_Write env).

Definition StreamLogWriter_Write_plain (env : Env) :=
  LogWriter_Write_plain (StreamLogWriter_Write_group env).

Definition StreamLogWriter_Write_event (env : Env) :=
  LogWriter_Write_event (StreamLogWriter_Write_plain env).

(** ** ColourStreamWriter *)

(** ColourEngine::ColourMode.  The switch in ColourStreamWriter::Write
    names two modes and has a [default:] label; [ColourMode_other]
    stands for every value handled there. *)
Inductive ColourMode : Type :=
| BY_CATEGORY
| BY_GROUP
| ColourMode_other.

(** The ColourEngine interface the writer calls through [colours->]. *)
Record ColourEngine : Type := mkColourEngine {
  GetColourMode : ColourMode;
  ColourByCategory : LogCategory -> string;
  ColourByGroup : LogGroup -> string;
  Reset : string
}.

(** [a < b] on the enum class LogCategory. *)
Definition LogCategory_lt (a b : LogCategory) : bool :=
  (LogCategory_value a <? LogCategory_value b)%Z.

(** ColourStreamWriter::Write(grp, ctg, data).  The calls are qualified
    ([LogWriter::Write(...)]), so they run the base-class bodies, which
    then dispatch to StreamLogWriter::Write. *)
Definition ColourStreamWriter_Write_plain (env : Env)
  (colours : ColourEngine) (w : StreamLogWriter)
  (grp : LogGroup) (ctg : LogCategory) (data : string) : StreamLogWriter :=
  match GetColourMode colours with
  | BY_CATEGORY =>
      LogWriter_Write_group (StreamLogWriter_Write env) w grp ctg data
        (ColourByCategory colours ctg) (Reset colours)
  | BY_GROUP =>
      let grpcol := ColourByGroup colours grp in
      let ctgcol := if LogCategory_lt LogCategory_INFO ctg
                    then ColourByCategory colours ctg
                    else grpcol in
      LogWriter_Write_group (StreamLogWriter_Write env) w grp ctg
        (grpcol ++ data) ctgcol (Reset colours)
  | ColourMode_other =>
      LogWriter_Write_plain (StreamLogWriter_Write_group env) w grp ctg data
  end.

Definition ColourStreamWriter_Write_event (env : Env)
  (colours : ColourEngine) :=
  LogWriter_Write_event (ColourStreamWriter_Write_plain env colours).

(** ** SyslogWriter *)

(** syslog.h *)
Definition LOG_INFO : Z := 6.

(** One call [syslog(priority, format, ...)], with the text the format
    expands to. *)
Record syslog_call : Type := mkSyslogCall {
  syslog_priority : Z;
  syslog_text : string
}.

Record SyslogWriter : Type := mkSyslogWriter {
  syslog_base : LogWriter;
  syslog_calls : list syslog_call
}.

Definition SyslogWriter_TimestampEnabled (w : SyslogWriter) : bool := true.

(** [p << (prepend_meta ? metadata.GetMetaValue(prepend_label) : "")] *)
Definition SyslogWriter_prepend (b : LogWriter) : string :=
  if prepend_meta b
  then GetMetaValue_default (metadata b) (prepend_label b)
  else "".

(** [m << metadata] *)
Definition SyslogWriter_meta (b : LogWriter) : string :=
  LogMetaData_print "" (metadata b).

(** SyslogWriter::Write(data, colour_init, colour_reset) *)
Definition SyslogWriter_Write (w : SyslogWriter)
  (data colour_init colour_reset : string) : SyslogWriter :=
  let b := syslog_base w in
  let p := SyslogWriter_prepend b in
  let '(calls, pm) :=
    if log_meta b && negb (LogMetaData_empty (metadata b))
    then ((syslog_calls w
            ++ [mkSyslogCall LOG_INFO
                  (c_str p ++ c_str (SyslogWriter_meta b))])%list,
          false)
    else (syslog_calls w, prepend_meta b) in
  {| syslog_base := Write_epilogue b pm;
     syslog_calls :=
       (calls ++ [mkSyslogCall LOG_INFO (c_str p ++ c_str data)])%list |}.

(** SyslogWriter::Write(grp, ctg, data, colour_init, colour_reset) *)
Definition SyslogWriter_Write_group (w : SyslogWriter)
  (grp : LogGroup) (ctg : LogCategory)
  (data colour_init colour_reset : string) : SyslogWriter :=
  let b := syslog_base w in
  let p := SyslogWriter_prepend b in
  let '(calls, pm) :=
    if log_meta b && negb (LogMetaData_empty (metadata b))
    then ((syslog_calls w
            ++ [mkSyslogCall (logcatg2syslog ctg)
                  (c_str p ++ c_str (SyslogWriter_meta b))])%list,
          false)
    else (syslog_calls w, prepend_meta b) in
  {| syslog_base := Write_epilogue b pm;
     syslog_calls :=
       (calls
        ++ [mkSyslogCall (logcatg2syslog ctg)
              (c_str p ++ c_str (LogPrefix grp ctg) ++ c_str data)])%list |}.

Definition SyslogWriter_Write_plain :=
  LogWriter_Write_plain SyslogWriter_Write_group.

Definition SyslogWriter_Write_event :=
  LogWriter_Write_event SyslogWriter_Write_plain.

(** ** JournaldWriter *)

(** A [struct iovec] filled with [{strdup(m.c_str()), m.length()}]. *)
Record iovec : Type := mkIovec {
  iov_base : string;
  iov_len : nat
}.

Definition iovec_of (m : string) : iovec :=
  {| iov_base := c_str m; iov_len := String.length m |}.

Record JournaldWriter : Type := mkJournaldWriter {
  journald_base : LogWriter;
  journal : list (list iovec);
  cout : string
}.

Definition JournaldWriter_TimestampEnabled (w : JournaldWriter) : bool :=
  true.

(** The array [l[0..i)] JournaldWriter::Write(const LogEvent&) hands to
    [sd_journal_sendv]. *)
Definition JournaldWriter_fields (b : LogWriter) (event : LogEvent)
  : list iovec :=
  let l := map (fun r => iovec_of ("O3_" ++ r))
               (GetMetaDataRecords (metadata b) true false) in
  let st := "O3_SESSION_TOKEN=" in
  let l := if negb (String.eqb (session_token event) "")
           then (l ++ [iovec_of (st ++ session_token event)])%list
           else l in
  let lg := "O3_LOG_GROUP=" ++ GetLogGroupStr event in
  let l := (l ++ [iovec_of lg])%list in
  let lc := "O3_LOG_CATEGORY=" ++ GetLogCategoryStr event in
  let l := (l ++ [iovec_of lc])%list in
  let m := "MESSAGE=" in
  let m := if prepend_prefix b && prepend_meta b
           then m ++ GetMetaValue_default_postfix (metadata b)
                       (prepend_label b) true
           else m in
  let m := m ++ message event in
  (l ++ [iovec_of m])%list.

(** JournaldWriter::Write(const LogEvent& event) *)
Definition JournaldWriter_Write_event (env : Env) (w : JournaldWriter)
  (event : LogEvent) : JournaldWriter :=
  let b := journald_base w in
  let l := JournaldWriter_fields b event in
  let r := sd_journal_sendv_result env in
  {| journald_base := Write_epilogue b (prepend_meta b);
     journal := (journal w ++ [l])%list;
     cout := if negb (r =? 0)%Z
             then cout w ++ "ERROR: " ++ strerror_errno env ++ endl
             else cout w |}.

(** JournaldWriter::Write(data, colour_init, colour_reset) *)
Definition JournaldWriter_Write (env : Env) (w : JournaldWriter)
  (data colour_init colour_reset : string) : JournaldWriter :=
  JournaldWriter_Write_event env w
    (LogEvent_new LogGroup_UNDEFINED LogCategory_INFO data).

(** JournaldWriter::Write(grp, ctg, data, colour_init, colour_reset) *)
Definition JournaldWriter_Write_group (env : Env) (w : JournaldWriter)
  (grp : LogGroup) (ctg : LogCategory)
  (data colour_init colour_reset : string) : JournaldWriter :=
  JournaldWriter_Write_event env w (LogEvent_new grp ctg data).

Definition JournaldWriter_Write_plain (env : Env) :=
  LogWriter_Write_plain (JournaldWriter_Write_group env).

(** ** A writer behind a [LogWriter::Ptr] *)

Inductive Writer : Type :=
| AStreamLogWriter (w : StreamLogWriter)
| AColourStreamWriter (w : StreamLogWriter) (colours : ColourEngine)
| ASyslogWriter (w : SyslogWriter)
| AJournaldWriter (w : JournaldWriter).

(** The protected base-class members of a writer. *)
Definition Writer_base (w : Writer) : LogWriter :=
  match w with
  | AStreamLogWriter s => stream_base s
  | AColourStreamWriter s _ => stream_base s
  | ASyslogWriter s => syslog_base s
  | AJournaldWriter s => journald_base s
  end.

(** The four Write overloads of the interface, with their arguments. *)
Inductive WriteCall : Type :=
| Write_data (data colour_init colour_reset : string)
| Write_group (grp : LogGroup) (ctg : LogCategory)
              (data colour_init colour_reset : string)
| Write_plain (grp : LogGroup) (ctg : LogCategory) (data : string)
| Write_event (logev : LogEvent).

(** Virtual dispatch: the final overrider of each overload in each
    class. *)
Definition Write (env : Env) (w : Writer) (c : WriteCall) : Writer :=
  match w, c with
  | AStreamLogWriter s, Write_data d ci cr =>
      AStreamLogWriter (StreamLogWriter_Write env s d ci cr)
  | AStreamLogWriter s, Write_group g k d ci cr =>
      AStreamLogWriter (StreamLogWriter_Write_group env s g k d ci cr)
  | AStreamLogWriter s, Write_plain g k d =>
      AStreamLogWriter (StreamLogWriter_Write_plain env s g k d)
  | AStreamLogWriter s, Write_event e =>
      AStreamLogWriter (StreamLogWriter_Write_event env s e)
  | AColourStreamWriter s ce, Write_data d ci cr =>
      AColourStreamWriter (StreamLogWriter_Write env s d ci cr) ce
  | AColourStreamWriter s ce, Write_group g k d ci cr =>
      AColourStreamWriter (StreamLogWriter_Write_group env s g k d ci cr) ce
  | AColourStreamWriter s ce, Write_plain g k d =>
      AColourStreamWriter (ColourStreamWriter_Write_plain env ce s g k d) ce
  | AColourStreamWriter s ce, Write_event e =>
      AColourStreamWriter (ColourStreamWriter_Write_event env ce s e) ce
  | ASyslogWriter s, Write_data d ci cr =>
      ASyslogWriter (SyslogWriter_Write s d ci cr)
  | ASyslogWriter s, Write_group g k d ci cr =>
      ASyslogWriter (SyslogWriter_Write_group s g k d ci cr)
  | ASyslogWriter s, Write_plain g k d =>
      ASyslogWriter (SyslogWriter_Write_plain s g k d)
  | ASyslogWriter s, Write_event e =>
      ASyslogWriter (SyslogWriter_Write_event s e)
  | AJournaldWriter s, Write_data d ci cr =>
      AJournaldWriter (JournaldWriter_Write env s d ci cr)
  | AJournaldWriter s, Write_group g k d ci cr =>
      AJournaldWriter (JournaldWriter_Write_group env s g k d ci cr)
  | AJournaldWriter s, Write_plain g k d =>
      AJournaldWriter (JournaldWriter_Write_plain env s g k d)
  | AJournaldWriter s, Write_event e =>
      AJournaldWriter (JournaldWriter_Write_event env s e)
  end.

End Writers.

(** ** Backend::Signals::RegistrationRequest (backend-signals.hpp) *)

(** What a call into the D-Bus layer can throw: the exception class the
    handler in Send names, or anything else. *)
Inductive Exception : Type :=
| DBus_Signals_Exception (what : string)
| other_exception (what : string).

(** How a call ends: it returns a value or leaves by an exception. *)
Inductive Result (A : Type) : Type :=
| Returns (a : A)
| Throws (ex : Exception).

Arguments Returns {A} a.
Arguments Throws {A} ex.

(** The "(ssi)" tuple built by glib2::Builder. *)
Definition RegistrationRequest_params : Type := (string * string * Z)%type.

(** RegistrationRequest::Send(busname, token, pid).  [EmitSignal] is the
    inherited DBus::Signals::Signal::EmitSignal; [cerr] is what has been
    written to std::cerr.  Returns the outcome and the new [cerr]. *)
Definition RegistrationRequest_Send
  (EmitSignal : RegistrationRequest_params -> Result bool)
  (cerr : string) (busname token : string) (pid : Z)
  : Result bool * string :=
  let b := (busname, token, pid) in
  match EmitSignal b with
  | Returns r => (Returns r, cerr)
  | Throws (DBus_Signals_Exception what) =>
      (Returns false,
       cerr ++ "RegistrationRequest::Send() EXCEPTION:" ++ what ++ endl)
  | Throws ex => (Throws ex, cerr)
  end.

(** BackendSignals::RegistrationRequest(busname, token, pid): a [void]
    member that calls [sig_regreq->Send(...)] as a statement. *)
Definition BackendSignals_RegistrationRequest
  (EmitSignal : RegistrationRequest_params -> Result bool)
  (cerr : string) (busname token : string) (pid : Z)
  : Result unit * string :=
  match RegistrationRequest_Send EmitSignal cerr busname token pid with
  | (Returns _, cerr') => (Returns tt, cerr')
  | (Throws ex, cerr') => (Throws ex, cerr')
  end.

(** ** BackendSignals: Log and LogFATAL *)

Section Signals.
Context {decls : LogDecls}.

(** The process the object lives in.  [timers_in_flight] are the
    delayed-shutdown threads that have been started and have not yet
    reached [kill(getpid(), SIGHUP)], newest first; [timers_started]
    counts every such thread ever started and numbers the next one;
    [log_calls] are the calls made to LogSender::Log;
    [sighup_sent] counts the signals the threads have sent. *)
Inductive ProcessStatus : Type :=
| Running
| Terminated.

Record Process : Type := mkProcess {
  status : ProcessStatus;
  timers_in_flight : list nat;
  timers_started : nat;
  log_calls : list (LogEvent * bool * string);
  sighup_sent : nat
}.

(** The members of BackendSignals that Log and LogFATAL use;
    [delayed_shutdown] is the [std::unique_ptr<std::thread>], [None]
    when it holds no thread. *)
Record BackendSignals : Type := mkBackendSignals {
  log_group : LogGroup;
  bs_session_token : string;
  logger_busname : string;
  delayed_shutdown : option nat
}.

(** The state after the constructor: the in-class initialisers leave
    [logger_busname] empty and [delayed_shutdown] null. *)
Definition BackendSignals_new (lgroup : LogGroup) (session_token : string)
  : BackendSignals :=
  {| log_group := lgroup; bs_session_token := session_token;
     logger_busname := ""; delayed_shutdown := None |}.

Definition Process_new : Process :=
  {| status := Running; timers_in_flight := []; timers_started := 0;
     log_calls := []; sighup_sent := 0 |}.

(** Events::Log(logev, session_token): a copy tagged with the token. *)
Definition Events_Log_tagged (logev : LogEvent) (token : string)
  : LogEvent :=
  {| group := group logev; category := category logev;
     message := message logev; session_token := token |}.

(** BackendSignals::Log(logev, duplicate_check, target) *)
Definition BackendSignals_Log (bs : BackendSignals) (p : Process)
  (logev : LogEvent) (duplicate_check : bool) : Process :=
  let l := Events_Log_tagged logev (bs_session_token bs) in
  {| status := status p; timers_in_flight := timers_in_flight p;
     timers_started := timers_started p;
     log_calls :=
       (log_calls p ++ [(l, duplicate_check, logger_busname bs)])%list;
     sighup_sent := sighup_sent p |}.

(** [new std::thread([]() { sleep(3); kill(getpid(), SIGHUP); })]: the
    thread starts running at construction.  Returns its handle. *)
Definition new_thread (p : Process) : nat * Process :=
  (timers_started p,
   {| status := status p;
      timers_in_flight := timers_started p :: timers_in_flight p;
      timers_started := S (timers_started p);
      log_calls := log_calls p; sighup_sent := sighup_sent p |}).

(** [std::terminate()] *)
Definition std_terminate (p : Process) : Process :=
  {| status := Terminated; timers_in_flight := [];
     timers_started := timers_started p;
     log_calls := log_calls p; sighup_sent := sighup_sent p |}.

(** [delayed_shutdown.reset(t)]: the pointer takes [t], then the thread
    object it held is deleted.  None of these threads is ever joined or
    detached, so a held thread is joinable and its destructor calls
    [std::terminate()]. *)
Definition delayed_shutdown_reset (bs : BackendSignals) (p : Process)
  (t : nat) : BackendSignals * Process :=
  let bs' := {| log_group := log_group bs;
                bs_session_token := bs_session_token bs;
                logger_busname := logger_busname bs;
                delayed_shutdown := Some t |} in
  match delayed_shutdown bs with
  | None => (bs', p)
  | Some _ => (bs', std_terminate p)
  end.

(** LogFATAL up to and including the construction of the new thread,
    before [reset] runs. *)
Definition LogFATAL_thread_started (bs : BackendSignals) (p : Process)
  (msg : string) : nat * Process :=
  new_thread
    (BackendSignals_Log bs p
       (LogEvent_new (log_group bs) LogCategory_FATAL msg) false).

(** BackendSignals::LogFATAL(msg).  Nothing runs in a process that has
    terminated. *)
Definition LogFATAL (bs : BackendSignals) (p : Process) (msg : string)
  : BackendSignals * Process :=
  match status p with
  | Terminated => (bs, p)
  | Running =>
      let '(t, p1) := LogFATAL_thread_started bs p msg in
      delayed_shutdown_reset bs p1 t
  end.

(** The body of the thread [t] reaching [kill(getpid(), SIGHUP)] after
    its [sleep(3)]. *)
Definition timer_fires (p : Process) (t : nat) : Process :=
  match status p with
  | Terminated => p
  | Running =>
      if existsb (Nat.eqb t) (timers_in_flight p)
      then {| status := status p;
              timers_in_flight :=
                filter (fun u => negb (Nat.eqb t u)) (timers_in_flight p);
              timers_started := timers_started p;
              log_calls := log_calls p;
              sighup_sent := S (sighup_sent p) |}
      else p
  end.

End Signals.

(** ** A concrete set of declarations, to run the model on inputs *)

Definition sample_LogTag : LogTag :=
  {| LogTag_str := fun encaps => if encaps then "{tag:42}" else "42";
     LogTag_encaps := true |}.

(** Categories and groups by their underlying integers. *)
#[export] Instance sample_decls : LogDecls := {|
  LogGroup := Z;
  LogCategory := Z;
  LogGroup_UNDEFINED := 0%Z;
  LogCategory_INFO := 4%Z;
  LogCategory_FATAL := 8%Z;
  LogCategory_value := fun c => c;
  LogPrefix := fun g c => "PFX: ";
  LogGroupStr := fun g => if (g =? 0)%Z then "[[UNSET]]" else "Group";
  LogCategoryStr := fun c => if (c =? 4)%Z then "INFO" else "Category";
  logcatg2syslog := fun c => if (c <? 4)%Z then 7%Z else 6%Z;
  LogTag_default := {| LogTag_str := fun _ => ""; LogTag_encaps := true |}
|}.

Definition sample_env : Env :=
  {| GetTimestamp_meta := "T1"; GetTimestamp_line := "T2";
     sd_journal_sendv_result := 0%Z; strerror_errno := "Success" |}.

(** A fresh writer after [PrependMeta("user", true)], with no metadata
    attached, behind each backend; the journal writer also after
    [AddMeta("user", "bob")]. *)
Definition sample_prepend_writer : LogWriter :=
  PrependMeta LogWriter_new "user" true.

Definition sample_stream_writer : Writer :=
  AStreamLogWriter
    {| stream_base := sample_prepend_writer; dest := "" |}.

Definition sample_syslog_writer : Writer :=
  ASyslogWriter
    {| syslog_base := sample_prepend_writer; syslog_calls := [] |}.

Definition sample_journald_writer : Writer :=
  AJournaldWriter
    {| journald_base := AddMeta sample_prepend_writer "user" "bob" false;
       journal := []; cout := "" |}.

(** A colour engine in each of the two named modes. *)
Definition sample_colours (mode : ColourMode) : ColourEngine :=
  {| GetColourMode := mode;
     ColourByCategory := fun c => "<C>";
     ColourByGroup := fun g => "<G>";
     Reset := "<R>" |}.

Definition sample_plain_stream : StreamLogWriter :=
  {| stream_base := EnableTimestamp LogWriter_new false; dest := "" |}.

(** A backend session right after construction, in a fresh process. *)
Definition sample_signals : BackendSignals :=
  BackendSignals_new 1%Z "token".

(** The D-Bus layer, first delivering and then failing to deliver. *)
Definition sample_emit_ok (r : bool)
  : RegistrationRequest_params -> Result bool :=
  fun _ => Returns r.

Definition sample_emit_fails
  : RegistrationRequest_params -> Result bool :=
  fun _ => Throws (DBus_Signals_Exception "no such name").

(** The metadata of the scenario [AddMeta("user", "alice")],
    [AddMeta("ip", "10.0.0.1", skip=true)], and a set with one entry. *)
Definition sample_metadata : LogMetaData :=
  LogMetaData_AddMeta
    (LogMetaData_AddMeta []
       (LogMetaDataValue_string "user" "alice" false))
    (LogMetaDataValue_string "ip" "10.0.0.1" true).

Definition sample_metadata_bob : LogMetaData :=
  LogMetaData_AddMeta [] (LogMetaDataValue_string "user" "bob" false).

(** A fresh writer after [EnableLogMeta(false)], and a writer on which
    [AddMeta("user", "alice")] ran before [EnableLogMeta(false)]. *)
Definition sample_disabled_writer : LogWriter :=
  EnableLogMeta LogWriter_new false.

Definition sample_disabled_writer_with_entry : LogWriter :=
  EnableLogMeta (AddMeta LogWriter_new "user" "alice" false) false.

(** ** Texts and inputs used to state further properties *)

(** What operator<< writes for an entry it does not skip: the label,
    "=", and the value rendered with the tag's own [encaps]. *)
Definition LogMetaDataValue_text (mdv : LogMetaDataValue) : string :=
  label mdv ++ "=" ++ GetValue mdv (LogTag_encaps (logtag mdv)).

(** The entries operator<< does not skip, in order. *)
Definition LogMetaData_visible (md : LogMetaData) : LogMetaData :=
  filter (fun mdv => negb (skip mdv)) md.

(** A set whose only entry is marked [skip]. *)
Definition sample_metadata_hidden : LogMetaData :=
  LogMetaData_AddMeta [] (LogMetaDataValue_string "ip" "10.0.0.1" true).

(** A stream writer holding only an entry marked [skip]. *)
Definition sample_hidden_stream : StreamLogWriter :=
  {| stream_base :=
       AddMeta (EnableTimestamp LogWriter_new false) "ip" "10.0.0.1" true;
     dest := "" |}.

(** A fresh base-class state with timestamps off. *)
Definition sample_quiet_writer : LogWriter :=
  EnableTimestamp LogWriter_new false.

(** A syslog writer after [AddMeta("user", "bob")] and
    [PrependMeta("user", prep)]. *)
Definition sample_syslog_prepend (prep : bool) : SyslogWriter :=
  {| syslog_base :=
       PrependMeta (AddMeta LogWriter_new "user" "bob" false) "user" prep;
     syslog_calls := [] |}.

(** A journal writer with one entry attached, and an event that carries
    a session token. *)
Definition sample_journald : JournaldWriter :=
  {| journald_base := AddMeta LogWriter_new "user" "bob" false;
     journal := []; cout := "" |}.

Definition sample_event : LogEvent :=
  {| group := 1%Z; category := 4%Z; message := "connected";
     session_token := "token" |}.

(** An environment in which [sd_journal_sendv] fails. *)
Definition sample_env_failing : Env :=
  {| GetTimestamp_meta := "T1"; GetTimestamp_line := "T2";
     sd_journal_sendv_result := (-22)%Z;
     strerror_errno := "Invalid argument" |}.

(** Whether a string holds a NUL character. *)
Fixpoint has_NUL (s : string) : bool :=
  match s with
  | EmptyString => false
  | String c r => Ascii.eqb c zero || has_NUL r
  end.


(** The D-Bus layer failing with something other than
    DBus::Signals::Exception. *)
Definition sample_emit_breaks
  : RegistrationRequest_params -> Result bool :=
  fun _ => Throws (other_exception "bad variant").

(** A stream writer whose metadata was set by AddMetaCopy after metadata
    logging was switched off. *)
Definition sample_copied_stream : StreamLogWriter :=
  {| stream_base :=
       AddMetaCopy (EnableLogMeta sample_quiet_writer false)
         sample_metadata_bob;
     dest := "" |}.

(** The same event as [sample_event] under another session token. *)
Definition sample_event_other_token : LogEvent :=
  {| group := 1%Z; category := 4%Z; message := "connected";
     session_token := "other" |}.

(** * Properties *)

(** ** Strings and loops *)

Lemma append_assoc (a b c : string) : (a ++ b) ++ c = a ++ (b ++ c).
Proof.
  induction a as [|ch a IH]; simpl; [reflexivity|].
  now rewrite IH.
Qed.

Lemma append_empty_r (a : string) : a ++ "" = a.
Proof.
  induction a as [|ch a IH]; simpl; [reflexivity|].
  now rewrite IH.
Qed.

Lemma find_if_none {A : Type} (pred : A -> bool) (l : list A) :
  (forall x, In x l -> pred x = false) -> find_if pred l = None.
Proof.
  induction l as [|e r IH]; intros H; simpl; [reflexivity|].
  rewrite (H e (or_introl eq_refl)).
  apply IH. intros x Hx. apply H. now right.
Qed.

Lemma find_if_first {A : Type} (pred : A -> bool) (pre post : list A)
  (e : A) :
  (forall x, In x pre -> pred x = false) -> pred e = true ->
  find_if pred (pre ++ e :: post)%list = Some e.
Proof.
  induction pre as [|x pre IH]; intros Hpre He; simpl.
  - now rewrite He.
  - rewrite (Hpre x (or_introl eq_refl)).
    apply IH; [|exact He]. intros y Hy. apply Hpre. now right.
Qed.

(** ** LogMetaDataValue and LogMetaData *)

Lemma GetMetaDataRecords_body_record (up enc : bool) (ret : list string)
  (mdc : LogMetaDataValue) :
  GetMetaDataRecords_body up enc ret mdc
  = (ret ++ [record_of up enc mdc])%list.
Proof.
  unfold GetMetaDataRecords_body, record_of, GetValue_default, GetValue.
  destruct (type mdc); reflexivity.
Qed.

Lemma GetMetaDataRecords_loop (up enc : bool) (md : LogMetaData) :
  forall ret,
    fold_left (GetMetaDataRecords_body up enc) md ret
    = (ret ++ map (record_of up enc) md)%list.
Proof.
  induction md as [|mdc md IH]; intros ret; simpl.
  - now rewrite app_nil_r.
  - rewrite IH, GetMetaDataRecords_body_record, <- app_assoc.
    reflexivity.
Qed.

(** C8.  A value built by the string constructor renders as that string
    whatever the encapsulation flag is, so [GetValue(true)] and
    [GetValue(false)] agree on it; two renderings of one value can only
    differ when the value is of the LogTag kind. *)
Theorem GetValue_string_ignores_encaps {decls : LogDecls} :
  (forall (l v : string) (s : bool),
      GetValue (LogMetaDataValue_string l v s) true = v
      /\ GetValue (LogMetaDataValue_string l v s) false = v)
  /\ (forall mdv : LogMetaDataValue,
         GetValue mdv true <> GetValue mdv false ->
         type mdv = LOGMETA_LOGTAG).
Proof.
  split.
  - intros l v s. split; reflexivity.
  - intros mdv Hdiff. unfold GetValue in Hdiff.
    destruct (type mdv); [now contradiction Hdiff | reflexivity].
Qed.

Lemma GetValue_string_ignores_encaps_witness :
  GetValue (LogMetaDataValue_string "user" "alice" false) true
  = GetValue (LogMetaDataValue_string "user" "alice" false) false
  /\ type (LogMetaDataValue_logtag "tag" sample_LogTag false)
     = LOGMETA_LOGTAG.
Proof.
  split.
  - destruct (proj1 GetValue_string_ignores_encaps "user" "alice" false)
      as [Ht Hf].
    rewrite Ht, Hf. reflexivity.
  - apply (proj2 GetValue_string_ignores_encaps).
    vm_compute. discriminate.
Defined.

(** C3, as the code has it.  GetMetaDataRecords returns one
    "label=value" record per entry of the set, in insertion order, the
    label in upper case when [upcase_label] is set and a LogTag value
    rendered with [logtag_encaps]; the [skip] member is not consulted,
    so entries marked [skip] are rendered like the others. *)
Theorem GetMetaDataRecords_all_entries (md : LogMetaData)
  (upcase_label logtag_encaps : bool) :
  GetMetaDataRecords md upcase_label logtag_encaps
  = map (fun mdc =>
           (if upcase_label then transform_toupper (label mdc)
            else label mdc)
           ++ "=" ++ GetValue mdc logtag_encaps) md
  /\ length (GetMetaDataRecords md upcase_label logtag_encaps)
     = LogMetaData_size md.
Proof.
  assert (H : GetMetaDataRecords md upcase_label logtag_encaps
              = map (record_of upcase_label logtag_encaps) md).
  { unfold GetMetaDataRecords. now rewrite GetMetaDataRecords_loop. }
  split; [exact H|].
  rewrite H. apply length_map.
Qed.

(** C3 as worded fails: an entry added with [skip = true] is among the
    records returned. *)
Lemma GetMetaDataRecords_keeps_skipped :
  GetMetaDataRecords sample_metadata false true
  = ["user=alice"; "ip=10.0.0.1"]
  /\ ~ (forall e, In e sample_metadata -> skip e = true ->
          ~ In (label e ++ "=" ++ GetValue e true)
               (GetMetaDataRecords sample_metadata false true)).
Proof.
  split; [reflexivity|].
  intros H.
  apply (H (LogMetaDataValue_string "ip" "10.0.0.1" true)).
  - simpl. right. left. reflexivity.
  - reflexivity.
  - simpl. right. left. reflexivity.
Qed.

(** C4, as the code has it.  GetMetaValue called without a postfix scans
    the entries in insertion order and returns the rendered value of the
    first entry whose label matches followed by the default postfix,
    which is a single space; it returns the empty string when no entry's
    label matches. *)
Theorem GetMetaValue_default_postfix_first_match (md : LogMetaData)
  (l : string) (encaps_logtag : bool) :
  (forall (pre post : LogMetaData) (e : LogMetaDataValue),
      md = (pre ++ e :: post)%list ->
      (forall x, In x pre -> label x <> l) ->
      label e = l ->
      GetMetaValue_default_postfix md l encaps_logtag
      = GetValue e encaps_logtag ++ " ")
  /\ ((forall x, In x md -> label x <> l) ->
      GetMetaValue_default_postfix md l encaps_logtag = "").
Proof.
  unfold GetMetaValue_default_postfix, GetMetaValue. split.
  - intros pre post e -> Hpre He.
    rewrite (find_if_first _ pre post e); [reflexivity| |].
    + intros x Hx. apply String.eqb_neq. intros E.
      apply (Hpre x Hx). now symmetry.
    + apply String.eqb_eq. now symmetry.
  - intros Hnone. rewrite find_if_none; [reflexivity|].
    intros x Hx. apply String.eqb_neq. intros E.
    apply (Hnone x Hx). now symmetry.
Qed.

Lemma GetMetaValue_default_postfix_first_match_witness :
  GetMetaValue_default_postfix
    [LogMetaDataValue_string "ip" "10.0.0.1" true;
     LogMetaDataValue_string "user" "bob" false;
     LogMetaDataValue_string "user" "eve" false] "user" true
  = "bob "
  /\ GetMetaValue_default_postfix
       [LogMetaDataValue_string "ip" "10.0.0.1" true] "user" true
     = "".
Proof.
  split.
  - apply (proj1 (GetMetaValue_default_postfix_first_match _ "user" true)
             [LogMetaDataValue_string "ip" "10.0.0.1" true]
             [LogMetaDataValue_string "user" "eve" false]
             (LogMetaDataValue_string "user" "bob" false)).
    + reflexivity.
    + intros x [<-|[]]. simpl. discriminate.
    + reflexivity.
  - apply (proj2 (GetMetaValue_default_postfix_first_match _ "user" true)).
    intros x [<-|[]]. simpl. discriminate.
Defined.

(** C4 as worded fails: with the postfix left to its default the value
    found comes back with a space after it, not with nothing after it. *)
Lemma GetMetaValue_default_appends_space :
  GetMetaValue_default sample_metadata_bob "user" = "bob "
  /\ GetMetaValue_default sample_metadata_bob "user"
     <> GetValue (LogMetaDataValue_string "user" "bob" false) true ++ "".
Proof.
  split; [reflexivity|].
  vm_compute. discriminate.
Qed.

(** ** LogWriter and its backends *)

(** Case split on [log_meta && !metadata.empty()], the test guarding the
    metadata line, for the base-class state [b]. *)
Ltac split_on_meta_line b :=
  destruct (log_meta b && negb (LogMetaData_empty (metadata b))).

Section WriterProperties.
Context {decls : LogDecls}.

Lemma Write_epilogue_metadata (b : LogWriter) (pm : bool) :
  metadata (Write_epilogue b pm) = [].
Proof. reflexivity. Qed.

Lemma Write_epilogue_prepend_label (b : LogWriter) (pm : bool) :
  prepend_label (Write_epilogue b pm) = "".
Proof. reflexivity. Qed.

(** The base-class state each implementation leaves behind. *)
Lemma StreamLogWriter_Write_base (env : Env) (w : StreamLogWriter)
  (data ci cr : string) :
  stream_base (StreamLogWriter_Write env w data ci cr)
  = Write_epilogue (stream_base w)
      (if log_meta (stream_base w)
          && negb (LogMetaData_empty (metadata (stream_base w)))
       then false else prepend_meta (stream_base w)).
Proof.
  unfold StreamLogWriter_Write.
  split_on_meta_line (stream_base w); reflexivity.
Qed.

Lemma SyslogWriter_Write_base (w : SyslogWriter) (data ci cr : string) :
  syslog_base (SyslogWriter_Write w data ci cr)
  = Write_epilogue (syslog_base w)
      (if log_meta (syslog_base w)
          && negb (LogMetaData_empty (metadata (syslog_base w)))
       then false else prepend_meta (syslog_base w)).
Proof.
  unfold SyslogWriter_Write.
  split_on_meta_line (syslog_base w); reflexivity.
Qed.

Lemma SyslogWriter_Write_group_base (w : SyslogWriter) (grp : LogGroup)
  (ctg : LogCategory) (data ci cr : string) :
  syslog_base (SyslogWriter_Write_group w grp ctg data ci cr)
  = Write_epilogue (syslog_base w)
      (if log_meta (syslog_base w)
          && negb (LogMetaData_empty (metadata (syslog_base w)))
       then false else prepend_meta (syslog_base w)).
Proof.
  unfold SyslogWriter_Write_group.
  split_on_meta_line (syslog_base w); reflexivity.
Qed.

Lemma JournaldWriter_Write_event_base (env : Env) (w : JournaldWriter)
  (event : LogEvent) :
  journald_base (JournaldWriter_Write_event env w event)
  = Write_epilogue (journald_base w) (prepend_meta (journald_base w)).
Proof. reflexivity. Qed.

(** Every overload of every backend ends in the common epilogue. *)
Lemma Write_base_epilogue (env : Env) (w : Writer) (c : WriteCall) :
  exists pm : bool,
    Writer_base (Write env w c) = Write_epilogue (Writer_base w) pm.
Proof.
  destruct w as [s|s ce|s|s]; destruct c as [d ci cr|g k d ci cr|g k d|e];
    simpl;
    unfold StreamLogWriter_Write_event, StreamLogWriter_Write_plain,
      StreamLogWriter_Write_group, ColourStreamWriter_Write_event,
      ColourStreamWriter_Write_plain, SyslogWriter_Write_event,
      SyslogWriter_Write_plain, JournaldWriter_Write_plain,
      JournaldWriter_Write_group, JournaldWriter_Write,
      LogWriter_Write_event, LogWriter_Write_plain, LogWriter_Write_group;
    try destruct (GetColourMode ce);
    unfold StreamLogWriter_Write_group, LogWriter_Write_group;
    rewrite ?StreamLogWriter_Write_base, ?SyslogWriter_Write_base,
      ?SyslogWriter_Write_group_base, ?JournaldWriter_Write_event_base;
    eexists; reflexivity.
Qed.

(** C1.  Whatever backend the writer is, whichever Write overload is
    called and whatever the writer held before, its metadata set is
    empty when the call returns. *)
Theorem Write_clears_metadata (env : Env) (w : Writer) (c : WriteCall) :
  metadata (Writer_base (Write env w c)) = []
  /\ LogMetaData_empty (metadata (Writer_base (Write env w c))) = true.
Proof.
  destruct (Write_base_epilogue env w c) as [pm ->].
  split; reflexivity.
Qed.

(** The label half of C2 holds on every path. *)
Lemma Write_clears_prepend_label (env : Env) (w : Writer) (c : WriteCall) :
  prepend_label (Writer_base (Write env w c)) = "".
Proof.
  destruct (Write_base_epilogue env w c) as [pm ->].
  reflexivity.
Qed.

(** C9, as the code has it.  With metadata logging disabled both AddMeta
    overloads return the writer as it was, so a lookup afterwards gives
    what it gave before; in particular it gives the empty string when
    the set held no entry with that label. *)
Theorem AddMeta_disabled_is_noop (w : LogWriter) (l data : string)
  (ltg : LogTag) (skip encaps : bool) :
  log_meta w = false ->
  AddMeta w l data skip = w
  /\ AddMeta_logtag w l ltg skip encaps = w
  /\ ((forall x, In x (metadata w) -> label x <> l) ->
      forall (encaps_logtag : bool) (postfix : string),
        GetMetaValue (metadata (AddMeta w l data skip)) l
          encaps_logtag postfix = ""
        /\ GetMetaValue (metadata (AddMeta_logtag w l ltg skip encaps)) l
             encaps_logtag postfix = "").
Proof.
  intros Hoff. unfold AddMeta, AddMeta_logtag. rewrite Hoff.
  split; [reflexivity|]. split; [reflexivity|].
  intros Hnone encaps_logtag postfix.
  assert (Hfind : find_if (fun e => (l =? label e)%string) (metadata w)
                  = None).
  { apply find_if_none. intros x Hx. apply String.eqb_neq. intros E.
    apply (Hnone x Hx). now symmetry. }
  unfold GetMetaValue. rewrite Hfind. split; reflexivity.
Qed.

End WriterProperties.

Lemma AddMeta_disabled_is_noop_witness :
  AddMeta sample_disabled_writer "user" "alice" false
  = sample_disabled_writer
  /\ GetMetaValue_default
       (metadata (AddMeta sample_disabled_writer "user" "alice" false))
       "user"
     = "".
Proof.
  destruct (AddMeta_disabled_is_noop sample_disabled_writer
              "user" "alice" sample_LogTag false true eq_refl)
    as [Hs [_ Hl]].
  split; [exact Hs|].
  apply (Hl (fun x (Hx : In x []) => match Hx with end) true " ").
Defined.

(** C9 as worded fails for a set that already holds the label: entries
    added while metadata logging was enabled stay after it is disabled,
    and the lookup finds them. *)
Lemma AddMeta_disabled_lookup_finds_earlier_entry :
  log_meta sample_disabled_writer_with_entry = false
  /\ GetMetaValue_default
       (metadata
          (AddMeta sample_disabled_writer_with_entry "user" "bob" false))
       "user"
     = "alice "
  /\ GetMetaValue_default
       (metadata
          (AddMeta sample_disabled_writer_with_entry "user" "bob" false))
       "user"
     <> "".
Proof.
  split; [reflexivity|]. split; [reflexivity|].
  vm_compute. discriminate.
Qed.

(** C2 fails on the code, which contradicts the documentation of
    PrependMeta in logwriter.hpp ("This is reset on each Write()
    operation").  After [PrependMeta("user", true)] a Write with no
    metadata attached leaves [prepend_meta] set on the stream and syslog
    writers, and the journal writer leaves it set even when metadata is
    attached; the label is cleared in all three. *)
Theorem Write_leaves_prepend_meta_set :
  prepend_meta
    (Writer_base (Write sample_env sample_stream_writer
                    (Write_data "x" "" ""))) = true
  /\ prepend_meta
       (Writer_base (Write sample_env sample_syslog_writer
                       (Write_data "x" "" ""))) = true
  /\ prepend_meta
       (Writer_base (Write sample_env sample_journald_writer
                       (Write_data "x" "" ""))) = true
  /\ prepend_label
       (Writer_base (Write sample_env sample_stream_writer
                       (Write_data "x" "" ""))) = "".
Proof. repeat split. Qed.

Section ColourProperties.
Context {decls : LogDecls}.

(** What StreamLogWriter::Write appends to the stream, spelled out. *)
Lemma StreamLogWriter_Write_dest (env : Env) (w : StreamLogWriter)
  (data ci cr : string) :
  dest (StreamLogWriter_Write env w data ci cr)
  = (if log_meta (stream_base w)
        && negb (LogMetaData_empty (metadata (stream_base w)))
     then StreamLogWriter_meta_line env (stream_base w) (dest w) ci cr
     else dest w)
    ++ (if timestamp (stream_base w) then GetTimestamp_line env else "")
    ++ " " ++ ci
    ++ (if negb (prepend_label (stream_base w) =? "")
        then GetMetaValue_default (metadata (stream_base w))
               (prepend_label (stream_base w))
        else "")
    ++ data ++ cr ++ endl.
Proof.
  unfold StreamLogWriter_Write.
  split_on_meta_line (stream_base w);
    cbn [dest]; unfold StreamLogWriter_data_line;
    destruct (negb (prepend_label (stream_base w) =? ""));
    rewrite ?append_assoc; reflexivity.
Qed.

(** C7.  In by-group mode the colour written in front of the line is the
    category colour when [LogCategory::INFO < ctg] and the group colour
    otherwise; in by-category mode it is the category colour.  The line
    is the one StreamLogWriter::Write emits: optional metadata line,
    then timestamp, space, colour, optional prepended metadata value,
    text, reset code and newline. *)
Theorem ColourStreamWriter_colour_choice (env : Env)
  (colours : ColourEngine) (w : StreamLogWriter)
  (grp : LogGroup) (ctg : LogCategory) (data : string) :
  let b := stream_base w in
  let line (colour text : string) :=
    (if log_meta b && negb (LogMetaData_empty (metadata b))
     then StreamLogWriter_meta_line env b (dest w) colour (Reset colours)
     else dest w)
    ++ (if timestamp b then GetTimestamp_line env else "")
    ++ " " ++ colour
    ++ (if negb (prepend_label b =? "")
        then GetMetaValue_default (metadata b) (prepend_label b)
        else "")
    ++ text ++ Reset colours ++ endl in
  (GetColourMode colours = BY_GROUP ->
   dest (ColourStreamWriter_Write_plain env colours w grp ctg data)
   = line (if (LogCategory_value LogCategory_INFO
               <? LogCategory_value ctg)%Z
           then ColourByCategory colours ctg
           else ColourByGroup colours grp)
          (LogPrefix grp ctg ++ ColourByGroup colours grp ++ data))
  /\ (GetColourMode colours = BY_CATEGORY ->
      dest (ColourStreamWriter_Write_plain env colours w grp ctg data)
      = line (ColourByCategory colours ctg) (LogPrefix grp ctg ++ data)).
Proof.
  cbv zeta. unfold ColourStreamWriter_Write_plain.
  split; intros ->; unfold LogWriter_Write_group, LogCategory_lt;
    rewrite StreamLogWriter_Write_dest, ?append_assoc; reflexivity.
Qed.

(** C10.  The single-string Write of the journal writer submits one
    record: the metadata records, no session-token field, the log-group
    field of LogGroup::UNDEFINED, the category field of
    LogCategory::INFO and the message, whatever [data] and the colour
    arguments are. *)
Theorem JournaldWriter_Write_group_and_category (env : Env)
  (w : JournaldWriter) (data colour_init colour_reset : string) :
  let b := journald_base w in
  journal (JournaldWriter_Write env w data colour_init colour_reset)
  = (journal w
     ++ [map (fun r => iovec_of ("O3_" ++ r))
           (GetMetaDataRecords (metadata b) true false)
         ++ [iovec_of ("O3_LOG_GROUP=" ++ LogGroupStr LogGroup_UNDEFINED);
             iovec_of ("O3_LOG_CATEGORY="
                       ++ LogCategoryStr LogCategory_INFO);
             iovec_of ("MESSAGE="
                       ++ (if prepend_prefix b && prepend_meta b
                           then GetMetaValue (metadata b) (prepend_label b)
                                  true " "
                           else "")
                       ++ data)]])%list.
Proof.
  cbv zeta.
  unfold JournaldWriter_Write, JournaldWriter_Write_event,
    JournaldWriter_fields, LogEvent_new, GetLogGroupStr, GetLogCategoryStr,
    GetMetaValue_default_postfix.
  cbn [journal session_token group category message String.eqb negb].
  destruct (prepend_prefix (journald_base w)
            && prepend_meta (journald_base w));
    rewrite <- ?app_assoc, ?append_assoc; reflexivity.
Qed.

End ColourProperties.

Lemma ColourStreamWriter_colour_choice_witness :
  dest (ColourStreamWriter_Write_plain sample_env (sample_colours BY_GROUP)
          sample_plain_stream 1%Z 5%Z "up")
  = " <C>PFX: <G>up<R>" ++ endl
  /\ dest (ColourStreamWriter_Write_plain sample_env
             (sample_colours BY_GROUP) sample_plain_stream 1%Z 4%Z "up")
     = " <G>PFX: <G>up<R>" ++ endl
  /\ dest (ColourStreamWriter_Write_plain sample_env
             (sample_colours BY_CATEGORY) sample_plain_stream 1%Z 4%Z "up")
     = " <C>PFX: up<R>" ++ endl.
Proof.
  split; [|split].
  - exact (proj1 (ColourStreamWriter_colour_choice sample_env
                    (sample_colours BY_GROUP) sample_plain_stream
                    1%Z 5%Z "up") eq_refl).
  - exact (proj1 (ColourStreamWriter_colour_choice sample_env
                    (sample_colours BY_GROUP) sample_plain_stream
                    1%Z 4%Z "up") eq_refl).
  - exact (proj2 (ColourStreamWriter_colour_choice sample_env
                    (sample_colours BY_CATEGORY) sample_plain_stream
                    1%Z 4%Z "up") eq_refl).
Defined.

(** ** Backend signals *)

(** C5, as the code has it.  RegistrationRequest::Send returns a success
    boolean: the result of EmitSignal when that returns, and [false],
    after reporting to std::cerr, when EmitSignal throws
    DBus::Signals::Exception, which it does not let through.
    BackendSignals::RegistrationRequest runs Send and hands nothing back
    to its caller in either case; the report on std::cerr is the same. *)
Theorem RegistrationRequest_Send_result
  (EmitSignal : RegistrationRequest_params -> Result bool)
  (cerr busname token : string) (pid : Z) :
  (forall r : bool,
      EmitSignal (busname, token, pid) = Returns r ->
      RegistrationRequest_Send EmitSignal cerr busname token pid
      = (Returns r, cerr)
      /\ BackendSignals_RegistrationRequest EmitSignal cerr busname token pid
         = (Returns tt, cerr))
  /\ (forall what : string,
         EmitSignal (busname, token, pid)
         = Throws (DBus_Signals_Exception what) ->
         RegistrationRequest_Send EmitSignal cerr busname token pid
         = (Returns false,
            cerr ++ "RegistrationRequest::Send() EXCEPTION:" ++ what
                 ++ endl)
         /\ BackendSignals_RegistrationRequest EmitSignal cerr
              busname token pid
            = (Returns tt,
               cerr ++ "RegistrationRequest::Send() EXCEPTION:" ++ what
                    ++ endl)).
Proof.
  unfold BackendSignals_RegistrationRequest, RegistrationRequest_Send.
  split.
  - intros r ->. split; reflexivity.
  - intros what ->. split; reflexivity.
Qed.

Lemma RegistrationRequest_Send_result_witness :
  RegistrationRequest_Send (sample_emit_ok true) "" "net.openvpn.v3.be"
    "token" 4242
  = (Returns true, "")
  /\ RegistrationRequest_Send sample_emit_fails "" "net.openvpn.v3.be"
       "token" 4242
     = (Returns false,
        "RegistrationRequest::Send() EXCEPTION:no such name" ++ endl).
Proof.
  split.
  - exact (proj1 (proj1 (RegistrationRequest_Send_result
                           (sample_emit_ok true) "" "net.openvpn.v3.be"
                           "token" 4242) true eq_refl)).
  - exact (proj1 (proj2 (RegistrationRequest_Send_result
                           sample_emit_fails "" "net.openvpn.v3.be"
                           "token" 4242) "no such name" eq_refl)).
Defined.

(** C5 as worded fails for the operation the sender exposes: a delivered
    and an undelivered request come back to the caller of
    BackendSignals::RegistrationRequest as the same value, so no
    function of that value is the success boolean. *)
Lemma BackendSignals_RegistrationRequest_returns_no_boolean :
  fst (BackendSignals_RegistrationRequest (sample_emit_ok true) ""
         "net.openvpn.v3.be" "token" 4242)
  = fst (BackendSignals_RegistrationRequest sample_emit_fails ""
           "net.openvpn.v3.be" "token" 4242)
  /\ ~ (exists success : Result unit -> bool,
          forall r : bool,
            success
              (fst (BackendSignals_RegistrationRequest (sample_emit_ok r)
                      "" "net.openvpn.v3.be" "token" 4242))
            = r).
Proof.
  split; [reflexivity|].
  intros [success H].
  pose proof (H true) as Ht. pose proof (H false) as Hf.
  cbn in Ht, Hf. rewrite Ht in Hf. discriminate.
Qed.

Section SignalProperties.
Context {decls : LogDecls}.

(** C6, as the code has it.  LogFATAL has no guard: every call made in a
    running process constructs one new timer thread, which joins those
    already in flight, whether or not [delayed_shutdown] already holds
    one.  A call on a newly constructed sender in a fresh process leaves
    exactly one timer in flight. *)
Theorem LogFATAL_starts_one_timer_per_call (bs : BackendSignals)
  (p : Process) (msg : string) :
  status p = Running ->
  timers_started (snd (LogFATAL bs p msg)) = S (timers_started p)
  /\ timers_in_flight (snd (LogFATAL_thread_started bs p msg))
     = timers_started p :: timers_in_flight p
  /\ delayed_shutdown (fst (LogFATAL bs p msg)) = Some (timers_started p)
  /\ (delayed_shutdown bs = None ->
      timers_in_flight (snd (LogFATAL bs p msg))
      = timers_started p :: timers_in_flight p).
Proof.
  intros Hrun. unfold LogFATAL. rewrite Hrun.
  unfold LogFATAL_thread_started, new_thread, delayed_shutdown_reset.
  destruct (delayed_shutdown bs); repeat split; try reflexivity;
    intros; discriminate.
Qed.

End SignalProperties.

(** A timer that fires leaves the set of timers in flight and sends the
    signal. *)
Example timer_fires_after_LogFATAL :
  timers_in_flight
    (timer_fires (snd (LogFATAL sample_signals Process_new "fatal")) 0)
  = []
  /\ sighup_sent
       (timer_fires (snd (LogFATAL sample_signals Process_new "fatal")) 0)
     = 1.
Proof. split; reflexivity. Qed.

Lemma LogFATAL_starts_one_timer_per_call_witness :
  timers_started (snd (LogFATAL sample_signals Process_new "fatal")) = 1
  /\ timers_in_flight (snd (LogFATAL sample_signals Process_new "fatal"))
     = [0].
Proof.
  destruct (LogFATAL_starts_one_timer_per_call sample_signals Process_new
              "fatal" eq_refl) as [Hs [_ [_ Hf]]].
  split; [exact Hs | exact (Hf eq_refl)].
Defined.

(** C6 as worded fails: a second LogFATAL before the first timer has
    fired starts a second timer thread, and at that point two are in
    flight. *)
Lemma LogFATAL_twice_starts_two_timers :
  timers_in_flight (snd (LogFATAL sample_signals Process_new "first"))
  = [0]
  /\ timers_in_flight
       (snd (LogFATAL_thread_started
               (fst (LogFATAL sample_signals Process_new "first"))
               (snd (LogFATAL sample_signals Process_new "first"))
               "second"))
     = [1; 0]
  /\ timers_started
       (snd (LogFATAL
               (fst (LogFATAL sample_signals Process_new "first"))
               (snd (LogFATAL sample_signals Process_new "first"))
               "second"))
     = 2
  /\ timers_started
       (snd (LogFATAL
               (fst (LogFATAL sample_signals Process_new "first"))
               (snd (LogFATAL sample_signals Process_new "first"))
               "second"))
     <> timers_started
          (snd (LogFATAL sample_signals Process_new "first")).
Proof.
  repeat split. vm_compute. discriminate.
Qed.

(** * Further properties of the code *)

(** ** LogMetaData: rendering and lookup *)

(** The loop of operator<< from any stream and any value of [first]. *)
Lemma LogMetaData_print_loop (md : LogMetaData) :
  forall (os : string) (first : bool),
    fst (fold_left LogMetaData_print_body md (os, first))
    = os ++ match LogMetaData_visible md with
            | [] => ""
            | _ :: _ =>
                (if first then "" else ", ")
                ++ String.concat ", "
                     (map LogMetaDataValue_text (LogMetaData_visible md))
            end.
Proof.
  induction md as [|mdv md IH]; intros os first.
  - cbn. now rewrite append_empty_r.
  - cbn [fold_left]. unfold LogMetaData_print_body at 2.
    unfold LogMetaData_visible in *. cbn [filter].
    destruct (skip mdv) eqn:Hskip; cbn [negb].
    + apply IH.
    + rewrite IH. unfold LogMetaDataValue_print. rewrite Hskip.
      fold (LogMetaDataValue_text mdv).
      destruct (filter (fun m => negb (skip m)) md) as [|x xs];
        destruct first; cbn [negb map String.concat];
        rewrite ?append_assoc, ?append_empty_r; reflexivity.
Qed.

Lemma filter_visible_nil (md : LogMetaData) :
  (forall mdv, In mdv md -> skip mdv = true) ->
  LogMetaData_visible md = [].
Proof.
  induction md as [|mdv md IH]; intros H; [reflexivity|].
  unfold LogMetaData_visible in *. cbn [filter].
  rewrite (H mdv (or_introl eq_refl)). cbn [negb].
  apply IH. intros x Hx. apply H. now right.
Qed.

(** X1.  operator<< for a metadata set appends to the stream the texts
    "label=value" of the entries not marked [skip], in insertion order,
    separated by ", ", with no separator before the first or after the
    last. *)
Theorem LogMetaData_print_joins_visible (os : string) (md : LogMetaData) :
  LogMetaData_print os md
  = os ++ String.concat ", "
            (map LogMetaDataValue_text (LogMetaData_visible md)).
Proof.
  unfold LogMetaData_print. rewrite LogMetaData_print_loop.
  destruct (LogMetaData_visible md); reflexivity.
Qed.

(** X2.  The lookup does not consult [skip]: an entry added to a set
    that has no entry of that label is found by its label, with the
    postfix appended, whether or not it is marked [skip]; a LogTag entry
    comes back rendered with the flag given to the lookup. *)
Theorem GetMetaValue_after_AddMeta {decls : LogDecls} (md : LogMetaData)
  (l v : string) (ltg : LogTag) (s encaps_logtag : bool)
  (postfix : string) :
  (forall x, In x md -> label x <> l) ->
  GetMetaValue (LogMetaData_AddMeta md (LogMetaDataValue_string l v s))
    l encaps_logtag postfix
  = v ++ postfix
  /\ GetMetaValue
       (LogMetaData_AddMeta md (LogMetaDataValue_logtag l ltg s))
       l encaps_logtag postfix
     = LogTag_str ltg encaps_logtag ++ postfix.
Proof.
  intros Hnone. unfold GetMetaValue, LogMetaData_AddMeta.
  assert (Hpre : forall x, In x md -> (l =? label x) = false).
  { intros x Hx. apply String.eqb_neq. intros E.
    apply (Hnone x Hx). now symmetry. }
  split; rewrite find_if_first; try reflexivity; try exact Hpre;
    cbn [label]; apply String.eqb_refl.
Qed.

Lemma GetMetaValue_after_AddMeta_witness :
  GetMetaValue
    (LogMetaData_AddMeta sample_metadata_hidden
       (LogMetaDataValue_string "user" "bob" true)) "user" true ""
  = "bob"
  /\ GetMetaValue
       (LogMetaData_AddMeta sample_metadata_hidden
          (LogMetaDataValue_logtag "user" sample_LogTag true))
       "user" false ";"
     = "42;".
Proof.
  assert (H : forall x, In x sample_metadata_hidden -> label x <> "user").
  { intros x [<-|[]]. cbn. discriminate. }
  split.
  - exact (proj1 (GetMetaValue_after_AddMeta sample_metadata_hidden
                    "user" "bob" sample_LogTag true true "" H)).
  - exact (proj2 (GetMetaValue_after_AddMeta sample_metadata_hidden
                    "user" "bob" sample_LogTag true false ";" H)).
Defined.

Lemma find_if_app_found {A : Type} (pred : A -> bool) (l l' : list A)
  (e : A) :
  find_if pred l = Some e -> find_if pred (l ++ l')%list = Some e.
Proof.
  induction l as [|x l IH]; cbn; [discriminate|].
  destruct (pred x); [trivial | exact IH].
Qed.

Lemma find_if_app_not_found {A : Type} (pred : A -> bool) (l l' : list A) :
  find_if pred l = None ->
  find_if pred (l ++ l')%list = find_if pred l'.
Proof.
  induction l as [|x l IH]; cbn; [reflexivity|].
  destruct (pred x); [discriminate | exact IH].
Qed.

Lemma find_if_none_all {A : Type} (pred : A -> bool) (l : list A) :
  find_if pred l = None -> forall x, In x l -> pred x = false.
Proof.
  induction l as [|y l IH]; cbn; intros Hf x Hin; [destruct Hin|].
  destruct (pred y) eqn:Hy; [discriminate|].
  destruct Hin as [<-|Hin]; [exact Hy | exact (IH Hf x Hin)].
Qed.

(** X3.  The first entry of a label wins: adding an entry changes the
    result of a lookup only for its own label, and only when the set
    had no entry of that label before. *)
Theorem GetMetaValue_AddMeta_frame (md : LogMetaData)
  (mdv : LogMetaDataValue) (k : string) (encaps_logtag : bool)
  (postfix : string) :
  label mdv <> k \/ (exists x, In x md /\ label x = k) ->
  GetMetaValue (LogMetaData_AddMeta md mdv) k encaps_logtag postfix
  = GetMetaValue md k encaps_logtag postfix.
Proof.
  intros H. unfold GetMetaValue, LogMetaData_AddMeta.
  destruct (find_if (fun e => (k =? label e)%string) md) as [e|] eqn:Hf.
  - now rewrite (find_if_app_found _ md [mdv] e Hf).
  - rewrite (find_if_app_not_found _ md [mdv] Hf). cbn.
    destruct (k =? label mdv)%string eqn:Hk; [|reflexivity].
    apply String.eqb_eq in Hk. destruct H as [Hne|[x [Hin Hx]]].
    + now contradiction Hne.
    + pose proof (find_if_none_all _ md Hf x Hin) as Hno.
      apply String.eqb_neq in Hno. now contradiction Hno.
Qed.

Lemma GetMetaValue_AddMeta_frame_witness :
  GetMetaValue
    (LogMetaData_AddMeta sample_metadata_bob
       (LogMetaDataValue_string "user" "eve" false)) "user" true " "
  = "bob "
  /\ GetMetaValue
       (LogMetaData_AddMeta sample_metadata_bob
          (LogMetaDataValue_string "ip" "10.0.0.1" false)) "host" true " "
     = "".
Proof.
  split.
  - rewrite (GetMetaValue_AddMeta_frame sample_metadata_bob
               (LogMetaDataValue_string "user" "eve" false) "user" true " ").
    + reflexivity.
    + right. exists (LogMetaDataValue_string "user" "bob" false).
      split; [now left | reflexivity].
  - rewrite (GetMetaValue_AddMeta_frame sample_metadata_bob
               (LogMetaDataValue_string "ip" "10.0.0.1" false)
               "host" true " ").
    + reflexivity.
    + left. cbn. discriminate.
Defined.

(** ** The writers: what a Write leaves and what it emits *)

Section WriterExtras.
Context {decls : LogDecls}.

(** X4.  No Write overload of any backend changes the configuration of
    the writer: the timestamp, metadata-logging and message-prepend
    switches are after the call what they were before it. *)
Theorem Write_keeps_configuration (env : Env) (w : Writer)
  (c : WriteCall) :
  timestamp (Writer_base (Write env w c)) = timestamp (Writer_base w)
  /\ log_meta (Writer_base (Write env w c)) = log_meta (Writer_base w)
  /\ prepend_prefix (Writer_base (Write env w c))
     = prepend_prefix (Writer_base w).
Proof.
  destruct (Write_base_epilogue env w c) as [pm ->].
  repeat split.
Qed.

(** X5.  The stream writer decides on the metadata line by
    [!metadata.empty()], not by what is visible: when every attached
    entry is marked [skip] it still writes a metadata line, which then
    holds only the timestamp, a space and the colour codes. *)
Theorem StreamLogWriter_Write_hidden_metadata (env : Env)
  (w : StreamLogWriter) (data ci cr : string) :
  log_meta (stream_base w) = true ->
  metadata (stream_base w) <> [] ->
  (forall mdv, In mdv (metadata (stream_base w)) -> skip mdv = true) ->
  prepend_meta (stream_base w) = false ->
  dest (StreamLogWriter_Write env w data ci cr)
  = dest w
    ++ (if timestamp (stream_base w) then GetTimestamp_meta env else "")
    ++ " " ++ ci ++ cr ++ endl
    ++ (if timestamp (stream_base w) then GetTimestamp_line env else "")
    ++ " " ++ ci
    ++ (if negb (prepend_label (stream_base w) =? "")
        then GetMetaValue_default (metadata (stream_base w))
               (prepend_label (stream_base w))
        else "")
    ++ data ++ cr ++ endl.
Proof.
  intros Hmeta Hne Hskip Hpm.
  rewrite StreamLogWriter_Write_dest, Hmeta.
  destruct (metadata (stream_base w)) as [|m md] eqn:Hmd;
    [now contradiction Hne|].
  cbn [LogMetaData_empty negb andb].
  unfold StreamLogWriter_meta_line. rewrite Hpm, Hmd.
  unfold LogMetaData_print. rewrite LogMetaData_print_loop.
  rewrite (filter_visible_nil (m :: md) Hskip).
  rewrite ?append_assoc, ?append_empty_r. reflexivity.
Qed.

(** X6.  Metadata and the sticky prepend label serve one Write only: a
    Write that follows another on the stream writer, with nothing
    attached in between, emits the message line alone: timestamp,
    space, colour, text, reset code, newline. *)
Theorem StreamLogWriter_Write_twice (env1 env2 : Env)
  (w : StreamLogWriter) (data1 ci1 cr1 data2 ci2 cr2 : string) :
  dest (StreamLogWriter_Write env2
          (StreamLogWriter_Write env1 w data1 ci1 cr1) data2 ci2 cr2)
  = dest (StreamLogWriter_Write env1 w data1 ci1 cr1)
    ++ (if timestamp (stream_base w) then GetTimestamp_line env2 else "")
    ++ " " ++ ci2 ++ data2 ++ cr2 ++ endl.
Proof.
  rewrite (StreamLogWriter_Write_dest env2), StreamLogWriter_Write_base.
  cbn [Write_epilogue metadata log_meta timestamp prepend_label
       LogMetaData_clear LogMetaData_empty negb andb String.eqb].
  rewrite Bool.andb_false_r. reflexivity.
Qed.

(** X7.  The scenario the header describes for PrependMeta, on a stream
    writer with metadata logging on and nothing attached: after
    [PrependMeta(l, prep)], [AddMeta(l, v, skip)] and [Write(data)] the
    stream has a metadata line, with the value and a space in front when
    [prep] is set and "l=v" unless [skip] is set, and then the message
    line with the value and a space in front of the text. *)
Theorem StreamLogWriter_prepend_scenario (env : Env) (b : LogWriter)
  (os l v data ci cr : string) (prep s : bool) :
  log_meta b = true ->
  metadata b = [] ->
  l <> "" ->
  dest (StreamLogWriter_Write env
          {| stream_base := AddMeta (PrependMeta b l prep) l v s;
             dest := os |} data ci cr)
  = os
    ++ (if timestamp b then GetTimestamp_meta env else "")
    ++ " " ++ ci
    ++ (if prep then v ++ " " else "")
    ++ (if s then "" else l ++ "=" ++ v)
    ++ cr ++ endl
    ++ (if timestamp b then GetTimestamp_line env else "")
    ++ " " ++ ci ++ v ++ " " ++ data ++ cr ++ endl.
Proof.
  intros Hmeta Hmd Hl.
  destruct b as [ts lm md pp pl pm]. cbn in Hmeta, Hmd. subst lm md.
  apply String.eqb_neq in Hl.
  rewrite StreamLogWriter_Write_dest.
  unfold StreamLogWriter_meta_line, GetMetaValue_default, GetMetaValue,
    LogMetaData_print.
  rewrite LogMetaData_print_loop.
  cbn -[append String.eqb endl String.concat].
  rewrite Hl, String.eqb_refl.
  unfold LogMetaDataValue_text, GetValue.
  destruct s, prep;
    cbn -[append String.eqb endl];
    rewrite ?append_assoc, ?append_empty_r; reflexivity.
Qed.

End WriterExtras.

Lemma StreamLogWriter_Write_hidden_metadata_witness :
  dest (StreamLogWriter_Write sample_env sample_hidden_stream
          "connected" "<c>" "<r>")
  = " <c><r>" ++ endl ++ " <c>connected<r>" ++ endl.
Proof.
  rewrite (StreamLogWriter_Write_hidden_metadata sample_env
             sample_hidden_stream "connected" "<c>" "<r>").
  - reflexivity.
  - reflexivity.
  - cbn. discriminate.
  - intros mdv [<-|[]]. reflexivity.
  - reflexivity.
Defined.

Lemma StreamLogWriter_prepend_scenario_witness :
  dest (StreamLogWriter_Write sample_env
          {| stream_base :=
               AddMeta (PrependMeta sample_quiet_writer "user" false)
                 "user" "bob" false;
             dest := "" |} "login" "" "")
  = " user=bob" ++ endl ++ " bob login" ++ endl.
Proof.
  rewrite (StreamLogWriter_prepend_scenario sample_env sample_quiet_writer
             "" "user" "bob" "login" "" "" false false).
  - reflexivity.
  - reflexivity.
  - reflexivity.
  - discriminate.
Defined.

Section SyslogExtras.
Context {decls : LogDecls}.

(** The calls a SyslogWriter Write adds, for the priority [prio] and the
    message text [text]. *)
Lemma SyslogWriter_calls_shape (b : LogWriter) (calls : list syslog_call)
  (prio : Z) (text : string) :
  (let '(calls', pm) :=
     if log_meta b && negb (LogMetaData_empty (metadata b))
     then ((calls
            ++ [mkSyslogCall prio
                  (c_str (SyslogWriter_prepend b)
                   ++ c_str (SyslogWriter_meta b))])%list,
           false)
     else (calls, prepend_meta b) in
   (calls' ++ [mkSyslogCall prio text])%list)
  = (calls
     ++ (if log_meta b && negb (LogMetaData_empty (metadata b))
         then [mkSyslogCall prio
                 (c_str (SyslogWriter_prepend b)
                  ++ c_str (SyslogWriter_meta b))]
         else [])
     ++ [mkSyslogCall prio text])%list.
Proof.
  split_on_meta_line b; [now rewrite <- app_assoc | reflexivity].
Qed.

Lemma SyslogWriter_Write_calls (w : SyslogWriter) (data ci cr : string) :
  syslog_calls (SyslogWriter_Write w data ci cr)
  = (syslog_calls w
     ++ (if log_meta (syslog_base w)
            && negb (LogMetaData_empty (metadata (syslog_base w)))
         then [mkSyslogCall LOG_INFO
                 (c_str (SyslogWriter_prepend (syslog_base w))
                  ++ c_str (SyslogWriter_meta (syslog_base w)))]
         else [])
     ++ [mkSyslogCall LOG_INFO
           (c_str (SyslogWriter_prepend (syslog_base w))
            ++ c_str data)])%list.
Proof.
  rewrite <- SyslogWriter_calls_shape. unfold SyslogWriter_Write.
  split_on_meta_line (syslog_base w); reflexivity.
Qed.

Lemma SyslogWriter_Write_group_calls (w : SyslogWriter) (grp : LogGroup)
  (ctg : LogCategory) (data ci cr : string) :
  syslog_calls (SyslogWriter_Write_group w grp ctg data ci cr)
  = (syslog_calls w
     ++ (if log_meta (syslog_base w)
            && negb (LogMetaData_empty (metadata (syslog_base w)))
         then [mkSyslogCall (logcatg2syslog ctg)
                 (c_str (SyslogWriter_prepend (syslog_base w))
                  ++ c_str (SyslogWriter_meta (syslog_base w)))]
         else [])
     ++ [mkSyslogCall (logcatg2syslog ctg)
           (c_str (SyslogWriter_prepend (syslog_base w))
            ++ c_str (LogPrefix grp ctg) ++ c_str data)])%list.
Proof.
  rewrite <- SyslogWriter_calls_shape. unfold SyslogWriter_Write_group.
  split_on_meta_line (syslog_base w); reflexivity.
Qed.

(** X8.  A syslog Write keeps the calls made so far and adds one call,
    or two when metadata is logged and attached; the single-string
    overload sends them all at LOG_INFO and the group/category overload
    sends them all at the priority the category maps to, metadata line
    included. *)
Theorem SyslogWriter_calls_and_priorities (w : SyslogWriter)
  (grp : LogGroup) (ctg : LogCategory) (data ci cr : string) :
  let n := if log_meta (syslog_base w)
              && negb (LogMetaData_empty (metadata (syslog_base w)))
           then 2 else 1 in
  (exists added,
      syslog_calls (SyslogWriter_Write w data ci cr)
      = (syslog_calls w ++ added)%list
      /\ length added = n
      /\ Forall (fun c => syslog_priority c = LOG_INFO) added)
  /\ (exists added,
         syslog_calls (SyslogWriter_Write_group w grp ctg data ci cr)
         = (syslog_calls w ++ added)%list
         /\ length added = n
         /\ Forall (fun c => syslog_priority c = logcatg2syslog ctg)
              added).
Proof.
  cbv zeta. split; eexists;
    (split;
     [first [apply SyslogWriter_Write_calls
            | apply SyslogWriter_Write_group_calls]|]);
    split_on_meta_line (syslog_base w); split;
    repeat constructor.
Qed.

(** X9.  On the syslog writer the value named by PrependMeta goes in
    front of the message only when PrependMeta was called with
    [prep_meta] set: with the flag clear the message call carries the
    text alone, whatever label is set and whatever is attached; with the
    flag set it carries the value of the first entry of that label, a
    space, and the text. *)
Theorem SyslogWriter_prepend_needs_flag (w : SyslogWriter)
  (data ci cr : string) :
  (prepend_meta (syslog_base w) = false ->
   last (syslog_calls (SyslogWriter_Write w data ci cr))
     (mkSyslogCall 0 "")
   = mkSyslogCall LOG_INFO (c_str data))
  /\ (prepend_meta (syslog_base w) = true ->
      last (syslog_calls (SyslogWriter_Write w data ci cr))
        (mkSyslogCall 0 "")
      = mkSyslogCall LOG_INFO
          (c_str (GetMetaValue (metadata (syslog_base w))
                    (prepend_label (syslog_base w)) true " ")
           ++ c_str data)).
Proof.
  rewrite SyslogWriter_Write_calls, app_assoc, last_last.
  unfold SyslogWriter_prepend.
  split; intros ->; reflexivity.
Qed.

(** X10.  A syslog Write that follows another, with nothing attached in
    between, makes exactly one call, carrying the text alone. *)
Theorem SyslogWriter_Write_twice (w : SyslogWriter)
  (data1 ci1 cr1 data2 ci2 cr2 : string) :
  syslog_calls (SyslogWriter_Write
                  (SyslogWriter_Write w data1 ci1 cr1) data2 ci2 cr2)
  = (syslog_calls (SyslogWriter_Write w data1 ci1 cr1)
     ++ [mkSyslogCall LOG_INFO (c_str data2)])%list.
Proof.
  rewrite (SyslogWriter_Write_calls (SyslogWriter_Write w data1 ci1 cr1)).
  rewrite SyslogWriter_Write_base.
  unfold SyslogWriter_prepend, GetMetaValue_default, GetMetaValue.
  cbn [Write_epilogue metadata log_meta prepend_label prepend_meta
       LogMetaData_clear LogMetaData_empty negb find_if].
  rewrite Bool.andb_false_r.
  destruct (if log_meta (syslog_base w)
               && negb (LogMetaData_empty (metadata (syslog_base w)))
            then false else prepend_meta (syslog_base w)); reflexivity.
Qed.

End SyslogExtras.

Lemma SyslogWriter_prepend_needs_flag_witness :
  last (syslog_calls
          (SyslogWriter_Write (sample_syslog_prepend false) "login" "" ""))
    (mkSyslogCall 0 "")
  = mkSyslogCall 6 "login"
  /\ last (syslog_calls
             (SyslogWriter_Write (sample_syslog_prepend true)
                "login" "" ""))
       (mkSyslogCall 0 "")
     = mkSyslogCall 6 "bob login".
Proof.
  split.
  - exact (proj1 (SyslogWriter_prepend_needs_flag
                    (sample_syslog_prepend false) "login" "" "") eq_refl).
  - exact (proj2 (SyslogWriter_prepend_needs_flag
                    (sample_syslog_prepend true) "login" "" "") eq_refl).
Defined.

Section JournaldExtras.
Context {decls : LogDecls}.


Lemma JournaldWriter_fields_shape (b : LogWriter) (event : LogEvent) :
  JournaldWriter_fields b event
  = (map (fun r => iovec_of ("O3_" ++ r))
       (GetMetaDataRecords (metadata b) true false)
     ++ (if session_token event =? ""
         then []
         else [iovec_of ("O3_SESSION_TOKEN=" ++ session_token event)])
     ++ [iovec_of ("O3_LOG_GROUP=" ++ LogGroupStr (group event));
         iovec_of ("O3_LOG_CATEGORY=" ++ LogCategoryStr (category event));
         iovec_of ("MESSAGE="
                   ++ (if prepend_prefix b && prepend_meta b
                       then GetMetaValue (metadata b) (prepend_label b)
                              true " "
                       else "")
                   ++ message event)])%list.
Proof.
  unfold JournaldWriter_fields, GetLogGroupStr, GetLogCategoryStr,
    GetMetaValue_default_postfix.
  destruct (session_token event =? ""); cbn [negb];
    destruct (prepend_prefix b && prepend_meta b);
    rewrite <- ?app_assoc, ?append_assoc; reflexivity.
Qed.

(** X11.  The record the journal writer submits for an event is, in this
    order: one "O3_"-prefixed field per metadata record, upper-cased and
    with tags unencapsulated, skipped entries included; the session
    token field, only when the event's token is not empty; the group
    field; the category field; the message, with the sticky prepend
    value in front only when both [prepend_prefix] and [prepend_meta]
    are set. *)
Theorem JournaldWriter_record_layout (env : Env) (w : JournaldWriter)
  (event : LogEvent) :
  journal (JournaldWriter_Write_event env w event)
  = (journal w
     ++ [map (fun mdv =>
                iovec_of ("O3_" ++ transform_toupper (label mdv) ++ "="
                          ++ GetValue mdv false))
           (metadata (journald_base w))
         ++ (if session_token event =? ""
             then []
             else [iovec_of ("O3_SESSION_TOKEN=" ++ session_token event)])
         ++ [iovec_of ("O3_LOG_GROUP=" ++ LogGroupStr (group event));
             iovec_of ("O3_LOG_CATEGORY="
                       ++ LogCategoryStr (category event));
             iovec_of ("MESSAGE="
                       ++ (if prepend_prefix (journald_base w)
                              && prepend_meta (journald_base w)
                           then GetMetaValue (metadata (journald_base w))
                                  (prepend_label (journald_base w))
                                  true " "
                           else "")
                       ++ message event)]])%list.
Proof.
  unfold JournaldWriter_Write_event. cbn [journal].
  rewrite JournaldWriter_fields_shape.
  unfold GetMetaDataRecords. rewrite GetMetaDataRecords_loop.
  cbn [app]. rewrite map_map. reflexivity.
Qed.


(** X13.  A failing [sd_journal_sendv] is reported on std::cout and
    nothing else: the writer ends in the same state, with the same
    record handed to the journal, whatever the call returned; std::cout
    is untouched when it returned 0 and gets "ERROR: ", the error text
    and a newline otherwise. *)
Theorem JournaldWriter_submission_failure (env env' : Env)
  (w : JournaldWriter) (event : LogEvent) :
  journald_base (JournaldWriter_Write_event env w event)
  = journald_base (JournaldWriter_Write_event env' w event)
  /\ journal (JournaldWriter_Write_event env w event)
     = journal (JournaldWriter_Write_event env' w event)
  /\ (sd_journal_sendv_result env = 0%Z ->
      cout (JournaldWriter_Write_event env w event) = cout w)
  /\ (sd_journal_sendv_result env <> 0%Z ->
      cout (JournaldWriter_Write_event env w event)
      = cout w ++ "ERROR: " ++ strerror_errno env ++ endl).
Proof.
  unfold JournaldWriter_Write_event. cbn [journald_base journal cout].
  repeat split.
  - intros ->. reflexivity.
  - intros Hr. apply Z.eqb_neq in Hr. now rewrite Hr.
Qed.

(** X14.  A journal Write that follows another, with nothing attached in
    between, submits a record of exactly three fields: group, category
    and the message text with nothing in front, even though
    [prepend_meta] may still be set. *)
Theorem JournaldWriter_Write_twice (env1 env2 : Env) (w : JournaldWriter)
  (data1 ci1 cr1 data2 ci2 cr2 : string) :
  journal (JournaldWriter_Write env2
             (JournaldWriter_Write env1 w data1 ci1 cr1) data2 ci2 cr2)
  = (journal (JournaldWriter_Write env1 w data1 ci1 cr1)
     ++ [[iovec_of ("O3_LOG_GROUP=" ++ LogGroupStr LogGroup_UNDEFINED);
          iovec_of ("O3_LOG_CATEGORY="
                    ++ LogCategoryStr LogCategory_INFO);
          iovec_of ("MESSAGE=" ++ data2)]])%list.
Proof.
  unfold JournaldWriter_Write at 1.
  unfold JournaldWriter_Write_event at 1. cbn [journal].
  rewrite JournaldWriter_fields_shape.
  unfold JournaldWriter_Write, JournaldWriter_Write_event.
  cbn [journald_base Write_epilogue metadata LogMetaData_clear
       GetMetaDataRecords fold_left map app LogEvent_new session_token
       group category message String.eqb prepend_label prepend_prefix
       prepend_meta].
  unfold GetMetaValue. cbn [find_if].
  destruct (prepend_prefix (journald_base w)
            && prepend_meta (journald_base w)); reflexivity.
Qed.

(** X15.  What a ColourStreamWriter leaves in the writer does not depend
    on the colour engine: the base-class state after its Write is the
    one the plain stream writer leaves; and in a colour mode other than
    the two named ones the whole call is the plain stream writer's. *)
Theorem ColourStreamWriter_state_ignores_colours (env : Env)
  (colours : ColourEngine) (w : StreamLogWriter)
  (grp : LogGroup) (ctg : LogCategory) (data : string) :
  stream_base (ColourStreamWriter_Write_plain env colours w grp ctg data)
  = stream_base (StreamLogWriter_Write_plain env w grp ctg data)
  /\ (GetColourMode colours = ColourMode_other ->
      ColourStreamWriter_Write_plain env colours w grp ctg data
      = StreamLogWriter_Write_plain env w grp ctg data).
Proof.
  unfold ColourStreamWriter_Write_plain, StreamLogWriter_Write_plain,
    StreamLogWriter_Write_group, LogWriter_Write_plain,
    LogWriter_Write_group.
  split.
  - destruct (GetColourMode colours);
      rewrite !StreamLogWriter_Write_base; reflexivity.
  - intros ->. reflexivity.
Qed.

End JournaldExtras.

Lemma JournaldWriter_submission_failure_witness :
  cout (JournaldWriter_Write_event sample_env sample_journald sample_event)
  = ""
  /\ cout (JournaldWriter_Write_event sample_env_failing sample_journald
             sample_event)
     = "ERROR: Invalid argument" ++ endl.
Proof.
  destruct (JournaldWriter_submission_failure sample_env sample_env_failing
              sample_journald sample_event) as [_ [_ [Hok _]]].
  destruct (JournaldWriter_submission_failure sample_env_failing sample_env
              sample_journald sample_event) as [_ [_ [_ Hfail]]].
  split.
  - exact (Hok eq_refl).
  - apply Hfail. cbn. discriminate.
Defined.

Lemma ColourStreamWriter_state_ignores_colours_witness :
  ColourStreamWriter_Write_plain sample_env
    (sample_colours ColourMode_other) sample_plain_stream 1%Z 5%Z "up"
  = StreamLogWriter_Write_plain sample_env sample_plain_stream
      1%Z 5%Z "up".
Proof.
  exact (proj2 (ColourStreamWriter_state_ignores_colours sample_env
                  (sample_colours ColourMode_other) sample_plain_stream
                  1%Z 5%Z "up") eq_refl).
Defined.

(** ** C strings and upper-casing *)

Lemma c_str_length_le (s : string) :
  String.length (c_str s) <= String.length s.
Proof.
  induction s as [|c r IH]; cbn; [lia|].
  destruct (Ascii.eqb c zero); cbn; lia.
Qed.

Lemma c_str_without_NUL (s : string) :
  has_NUL s = false -> c_str s = s.
Proof.
  induction s as [|c r IH]; cbn; [reflexivity|].
  destruct (Ascii.eqb c zero); cbn; [discriminate|].
  intros H. now rewrite IH.
Qed.

Lemma c_str_with_NUL (s : string) :
  has_NUL s = true -> String.length (c_str s) < String.length s.
Proof.
  induction s as [|c r IH]; cbn; [discriminate|].
  destruct (Ascii.eqb c zero); cbn; [lia|].
  intros H. specialize (IH H). lia.
Qed.

(** X16.  A journal field is built from [strdup(m.c_str())] and
    [m.length()]: the length handed over is never smaller than the
    duplicated text; the two agree, and the text is the whole string,
    when the string holds no NUL character; with a NUL in the string
    the length handed over exceeds the duplicated text. *)
Theorem iovec_of_length (m : string) :
  String.length (iov_base (iovec_of m)) <= iov_len (iovec_of m)
  /\ (has_NUL m = false ->
      iov_base (iovec_of m) = m
      /\ iov_len (iovec_of m) = String.length (iov_base (iovec_of m)))
  /\ (has_NUL m = true ->
      String.length (iov_base (iovec_of m)) < iov_len (iovec_of m)).
Proof.
  unfold iovec_of. cbn [iov_base iov_len].
  split; [apply c_str_length_le|]. split.
  - intros H. now rewrite (c_str_without_NUL m H).
  - apply c_str_with_NUL.
Qed.

Lemma iovec_of_length_witness :
  iov_base (iovec_of "MESSAGE=up") = "MESSAGE=up"
  /\ String.length
       (iov_base (iovec_of (String "a" (String zero (String "b" "")))))
     < iov_len (iovec_of (String "a" (String zero (String "b" "")))).
Proof.
  split.
  - exact (proj1 (proj1 (proj2 (iovec_of_length "MESSAGE=up")) eq_refl)).
  - exact (proj2 (proj2 (iovec_of_length
                           (String "a" (String zero (String "b" "")))))
             eq_refl).
Defined.

Lemma toupper_idempotent (c : ascii) : toupper (toupper c) = toupper c.
Proof.
  destruct c as [[] [] [] [] [] [] [] []]; reflexivity.
Qed.

(** X17.  The upper-casing GetMetaDataRecords applies to a label keeps
    its length and changes nothing when applied again, so a label that
    went through it once is a fixed point of it. *)
Theorem transform_toupper_stable (s : string) :
  String.length (transform_toupper s) = String.length s
  /\ transform_toupper (transform_toupper s) = transform_toupper s.
Proof.
  induction s as [|c r [IHl IHi]]; cbn; [split; reflexivity|].
  rewrite IHl, IHi, toupper_idempotent. split; reflexivity.
Qed.

(** ** Backend signals: exceptions, the fatal log line, termination *)

(** X18.  Only DBus::Signals::Exception is handled in Send: any other
    exception thrown by EmitSignal leaves Send, and
    BackendSignals::RegistrationRequest, as it is, and nothing is
    written to std::cerr. *)
Theorem RegistrationRequest_Send_other_exception
  (EmitSignal : RegistrationRequest_params -> Result bool)
  (cerr busname token what : string) (pid : Z) :
  EmitSignal (busname, token, pid) = Throws (other_exception what) ->
  RegistrationRequest_Send EmitSignal cerr busname token pid
  = (Throws (other_exception what), cerr)
  /\ BackendSignals_RegistrationRequest EmitSignal cerr busname token pid
     = (Throws (other_exception what), cerr).
Proof.
  intros H.
  unfold BackendSignals_RegistrationRequest, RegistrationRequest_Send.
  rewrite H. split; reflexivity.
Qed.

Lemma RegistrationRequest_Send_other_exception_witness :
  RegistrationRequest_Send sample_emit_breaks "" "net.openvpn.v3.be"
    "token" 4242
  = (Throws (other_exception "bad variant"), "").
Proof.
  exact (proj1 (RegistrationRequest_Send_other_exception sample_emit_breaks
                  "" "net.openvpn.v3.be" "token" "bad variant" 4242
                  eq_refl)).
Defined.

(** X19.  Send reports success only for a delivered signal: when it
    returns [true], EmitSignal returned [true] for the tuple built from
    the three arguments and std::cerr was not written to. *)
Theorem RegistrationRequest_Send_true_means_emitted
  (EmitSignal : RegistrationRequest_params -> Result bool)
  (cerr cerr' busname token : string) (pid : Z) :
  RegistrationRequest_Send EmitSignal cerr busname token pid
  = (Returns true, cerr') ->
  EmitSignal (busname, token, pid) = Returns true /\ cerr' = cerr.
Proof.
  unfold RegistrationRequest_Send.
  destruct (EmitSignal (busname, token, pid)) as [r|[what|what]];
    intros [= ? ?]; subst; split; reflexivity.
Qed.

Lemma RegistrationRequest_Send_true_means_emitted_witness :
  sample_emit_ok true ("net.openvpn.v3.be", "token", 4242%Z)
  = Returns true
  /\ "" = "".
Proof.
  exact (RegistrationRequest_Send_true_means_emitted (sample_emit_ok true)
           "" "" "net.openvpn.v3.be" "token" 4242 eq_refl).
Defined.

Section SignalExtras.
Context {decls : LogDecls}.


(** X21.  A LogFATAL on a sender whose [delayed_shutdown] already holds
    a thread ends in [std::terminate()]: replacing the pointer destroys
    the thread object it held, which was never joined or detached.  The
    process is terminated and no timer is left in flight. *)
Theorem LogFATAL_again_terminates (bs : BackendSignals) (p : Process)
  (msg : string) :
  status p = Running ->
  delayed_shutdown bs <> None ->
  status (snd (LogFATAL bs p msg)) = Terminated
  /\ timers_in_flight (snd (LogFATAL bs p msg)) = [].
Proof.
  intros Hrun Hheld. unfold LogFATAL. rewrite Hrun.
  unfold LogFATAL_thread_started, new_thread, delayed_shutdown_reset.
  destruct (delayed_shutdown bs); [split; reflexivity|].
  now contradiction Hheld.
Qed.



End SignalExtras.


Lemma LogFATAL_again_terminates_witness :
  status
    (snd (LogFATAL (fst (LogFATAL sample_signals Process_new "first"))
            (snd (LogFATAL sample_signals Process_new "first")) "second"))
  = Terminated.
Proof.
  apply (LogFATAL_again_terminates
           (fst (LogFATAL sample_signals Process_new "first"))
           (snd (LogFATAL sample_signals Process_new "first")) "second").
  - reflexivity.
  - cbn. discriminate.
Defined.

(** ** What the writers ignore *)

Section IgnoredInputs.
Context {decls : LogDecls}.

(** X23.  Behind the stream, colour stream and syslog writers the event
    overload of Write uses the group, the category and the message of
    the event only: two events that agree on these are written alike and
    leave the same writer, whatever their session tokens are. *)
Theorem Write_event_ignores_session_token (env : Env) (w : Writer)
  (ev ev' : LogEvent) :
  (forall j, w <> AJournaldWriter j) ->
  group ev = group ev' ->
  category ev = category ev' ->
  message ev = message ev' ->
  Write env w (Write_event ev) = Write env w (Write_event ev').
Proof.
  intros Hnj Hg Hc Hm.
  destruct w as [s|s ce|s|s]; cbn [Write];
    unfold StreamLogWriter_Write_event, ColourStreamWriter_Write_event,
      SyslogWriter_Write_event, LogWriter_Write_event;
    rewrite ?Hg, ?Hc, ?Hm; try reflexivity.
  now contradiction (Hnj s).
Qed.

(** X24.  The syslog and journal writers leave timestamps and colours
    to others: what they hand to syslog or to the journal is the same
    whatever EnableTimestamp was called with and whatever colour strings
    are passed. *)
Theorem Syslog_Journald_ignore_timestamp_and_colours (env : Env)
  (b : LogWriter) (calls : list syslog_call) (recs : list (list iovec))
  (out : string) (tstamp : bool) (grp : LogGroup) (ctg : LogCategory)
  (data ci cr ci' cr' : string) :
  syslog_calls
    (SyslogWriter_Write
       {| syslog_base := EnableTimestamp b tstamp; syslog_calls := calls |}
       data ci cr)
  = syslog_calls
      (SyslogWriter_Write {| syslog_base := b; syslog_calls := calls |}
         data ci' cr')
  /\ syslog_calls
       (SyslogWriter_Write_group
          {| syslog_base := EnableTimestamp b tstamp;
             syslog_calls := calls |} grp ctg data ci cr)
     = syslog_calls
         (SyslogWriter_Write_group
            {| syslog_base := b; syslog_calls := calls |}
            grp ctg data ci' cr')
  /\ journal
       (JournaldWriter_Write_group env
          {| journald_base := EnableTimestamp b tstamp; journal := recs;
             cout := out |} grp ctg data ci cr)
     = journal
         (JournaldWriter_Write_group env
            {| journald_base := b; journal := recs; cout := out |}
            grp ctg data ci' cr').
Proof.
  rewrite !SyslogWriter_Write_calls, !SyslogWriter_Write_group_calls.
  repeat split.
Qed.

(** X25.  With metadata logging switched off no metadata line is
    written, even when the set holds entries (AddMetaCopy stores them
    whatever the switch says): the stream writer emits the message line
    alone and the syslog writer makes one call.  The entries still serve
    the sticky prepend of that message. *)
Theorem Write_without_log_meta (env : Env) (w : StreamLogWriter)
  (sw : SyslogWriter) (data ci cr : string) :
  (log_meta (stream_base w) = false ->
   dest (StreamLogWriter_Write env w data ci cr)
   = dest w
     ++ (if timestamp (stream_base w) then GetTimestamp_line env else "")
     ++ " " ++ ci
     ++ (if negb (prepend_label (stream_base w) =? "")
         then GetMetaValue_default (metadata (stream_base w))
                (prepend_label (stream_base w))
         else "")
     ++ data ++ cr ++ endl)
  /\ (log_meta (syslog_base sw) = false ->
      syslog_calls (SyslogWriter_Write sw data ci cr)
      = (syslog_calls sw
         ++ [mkSyslogCall LOG_INFO
               (c_str (SyslogWriter_prepend (syslog_base sw))
                ++ c_str data)])%list).
Proof.
  split; intros Hoff.
  - now rewrite StreamLogWriter_Write_dest, Hoff.
  - now rewrite SyslogWriter_Write_calls, Hoff.
Qed.

End IgnoredInputs.

Lemma Write_event_ignores_session_token_witness :
  Write sample_env sample_stream_writer (Write_event sample_event)
  = Write sample_env sample_stream_writer
      (Write_event sample_event_other_token).
Proof.
  apply Write_event_ignores_session_token; try reflexivity.
  intros j. discriminate.
Defined.

Lemma Write_without_log_meta_witness :
  dest (StreamLogWriter_Write sample_env sample_copied_stream "login"
          "" "")
  = " login" ++ endl
  /\ syslog_calls
       (SyslogWriter_Write
          {| syslog_base := stream_base sample_copied_stream;
             syslog_calls := [] |} "login" "" "")
     = [mkSyslogCall 6 "login"].
Proof.
  destruct (Write_without_log_meta sample_env sample_copied_stream
              {| syslog_base := stream_base sample_copied_stream;
                 syslog_calls := [] |} "login" "" "") as [Hs Hl].
  split; [exact (Hs eq_refl) | exact (Hl eq_refl)].
Defined.
